(** * Bosque Jupyter kernel: lexer, compiler/runtime wrapper and kernel

    A shallow embedding of [bosque_kernel/lexer.py], [bosque_kernel/wrapper.py]
    and [bosque_kernel/kernel.py], and the properties of the specification
    that were checked against it.

    Conventions of the model.
    - A Python [str] is a list of characters; a character is a code point
      below 256, classified the way Python's [re] and [str.strip] classify
      that code point.
    - A path is the list of its components below the root, so that
      [os.path.join d name] is [d ++ [name]].
    - Code with effects runs in a monad that threads the world (file system,
      working directory, messages sent, child processes run) and keeps it
      when an exception is raised, as Python does. *)

From Stdlib Require Import String Ascii List Bool Arith Lia ZArith.
Import ListNotations.
Local Open Scope list_scope.
Set Warnings "-register-all".

(* ================================================================== *)
(** * Characters and Python strings *)
(* ================================================================== *)

Module Py.

Definition code (c : ascii) : nat := nat_of_ascii c.

(** [lo-hi] inside a character class. *)
Definition in_range (lo hi c : ascii) : bool :=
  (code lo <=? code c) && (code c <=? code hi).

(** The characters listed one by one inside a character class. *)
Definition one_of (cs : string) (c : ascii) : bool :=
  existsb (Ascii.eqb c) (list_ascii_of_string cs).

Definition newline : ascii := "010"%char.
Definition dquote : ascii := "034"%char.
Definition squote : ascii := "039"%char.
Definition backslash : ascii := "092"%char.

(** [str.isalnum] on the code points below 256. *)
Definition isalnum (c : ascii) : bool :=
  in_range "0" "9" c || in_range "A" "Z" c || in_range "a" "z" c
  || existsb (Nat.eqb (code c)) [170; 178; 179; 181; 185; 186; 188; 189; 190]
  || ((192 <=? code c) && (code c <=? 214))
  || ((216 <=? code c) && (code c <=? 246))
  || (248 <=? code c).

(** [\w] of a [str] pattern. *)
Definition is_word (c : ascii) : bool := isalnum c || Ascii.eqb c "_".

(** [\s] of a [str] pattern, which is also what [str.strip()] removes. *)
Definition is_space (c : ascii) : bool :=
  ((9 <=? code c) && (code c <=? 13))
  || ((28 <=? code c) && (code c <=? 32))
  || (code c =? 133) || (code c =? 160).

Fixpoint lstrip (s : list ascii) : list ascii :=
  match s with
  | c :: s' => if is_space c then lstrip s' else s
  | [] => []
  end.

Definition rstrip (s : list ascii) : list ascii := rev (lstrip (rev s)).

(** [s.strip()] *)
Definition strip (s : string) : string :=
  string_of_list_ascii (lstrip (rstrip (list_ascii_of_string s))).

(** [x or y] on strings: the empty string is falsy. *)
Definition str_or (x y : string) : string :=
  match x with EmptyString => y | _ => x end.

(** [sub in s] *)
Fixpoint str_in (sub s : string) : bool :=
  String.prefix sub s
  || match s with
     | EmptyString => false
     | String _ s' => str_in sub s'
     end.

End Py.

(* ================================================================== *)
(** * Regular expressions, matched the way Python's [re] does *)
(* ================================================================== *)

Module Regex.
Import Py.

(** The constructs the lexer's patterns use.  Quantifiers are greedy and
    alternation is ordered, as in a backtracking matcher. *)
Inductive regex : Type :=
| Eps
| Chr (cls : ascii -> bool)
| Cat (r1 r2 : regex)
| Alt (r1 r2 : regex)
| Star (r : regex)
| WordB
| Eol
| Ahead (r : regex).

Definition Plus (r : regex) : regex := Cat r (Star r).
Definition Opt (r : regex) : regex := Alt r Eps.
Definition Never : regex := Chr (fun _ => false).

(** A sequence [r1 r2 ... rn]. *)
Definition seq (rs : list regex) : regex := fold_right Cat Eps rs.

(** An alternation [r1|r2|...|rn]. *)
Fixpoint alts (rs : list regex) : regex :=
  match rs with
  | [] => Never
  | [r] => r
  | r :: rs' => Alt r (alts rs')
  end.

(** A literal text. *)
Definition Lit (s : string) : regex :=
  seq (map (fun c => Chr (Ascii.eqb c)) (list_ascii_of_string s)).

(** [\b]: exactly one of the characters before and after the position is a
    word character (a missing character counts as a non-word one). *)
Definition boundary (prev : option ascii) (s : list ascii) : bool :=
  xorb (match prev with Some c => is_word c | None => false end)
       (match s with c :: _ => is_word c | [] => false end).

(** [$] under [re.MULTILINE]: end of the text or just before a newline. *)
Definition at_eol (s : list ascii) : bool :=
  match s with
  | [] => true
  | c :: _ => Ascii.eqb c newline
  end.

(** The character before the position reached after [n] more characters. *)
Definition prev_after (prev : option ascii) (s : list ascii) (n : nat)
  : option ascii :=
  match n with
  | 0 => prev
  | S m => nth_error s m
  end.

(** Greedy iteration: every way to match the body once (an empty iteration
    is dropped) followed by every way to go on, and last the empty match. *)
Fixpoint star_ends (body : option ascii -> list ascii -> list nat)
    (fuel : nat) (prev : option ascii) (s : list ascii) : list nat :=
  match fuel with
  | 0 => [0]
  | S fuel' =>
      flat_map (fun n =>
          match n with
          | 0 => []
          | S _ => map (Nat.add n)
                     (star_ends body fuel' (prev_after prev s n) (skipn n s))
          end) (body prev s)
      ++ [0]
  end.

(** [ends r prev s]: the lengths of all the matches of [r] at the start of
    [s] (with [prev] the character before it), in the order in which a
    backtracking matcher tries them.  The match [re] reports is the first. *)
Fixpoint ends (r : regex) (prev : option ascii) (s : list ascii) : list nat :=
  match r with
  | Eps => [0]
  | Chr cls =>
      match s with
      | c :: _ => if cls c then [1] else []
      | [] => []
      end
  | Cat r1 r2 =>
      flat_map (fun n =>
          map (Nat.add n) (ends r2 (prev_after prev s n) (skipn n s)))
        (ends r1 prev s)
  | Alt r1 r2 => ends r1 prev s ++ ends r2 prev s
  | Star r1 => star_ends (ends r1) (length s) prev s
  | WordB => if boundary prev s then [0] else []
  | Eol => if at_eol s then [0] else []
  | Ahead r1 =>
      match ends r1 prev s with
      | [] => []
      | _ :: _ => [0]
      end
  end.

(** [pattern.match(text, pos)]: the length of the match, if there is one. *)
Definition match_at (r : regex) (prev : option ascii) (s : list ascii)
  : option nat :=
  hd_error (ends r prev s).


End Regex.

(* ================================================================== *)
(** * lexer.py: the token table of [BosqueLexer] *)
(* ================================================================== *)

Module BosqueLexer.
Import Py Regex.

(** The token types the table names, and the two the scanner adds.
    [lexer.py] imports [Constant] from [pygments.token], which defines no
    such name, so the module does not load with a stock Pygments; the table
    is modelled as it is written, with [Constant.Language] and
    [Constant.Numeric] as token types of their own. *)
Inductive ttype : Type :=
| Text | Whitespace | Error
| Comment_Single | Comment_Multiline
| String_Double | String_Single | String_Escape
| Keyword | Constant_Language | Constant_Numeric
| Name_Class | Name_Variable | Name_Function
| Operator | Punctuation.

Inductive state : Type :=
| root
| comment_multiline_double_dash
| comment_multiline
| string_double
| string_single.

(** The third component of a rule: a state to enter, or ['#pop']. *)
Inductive transition : Type :=
| Push (st : state)
| Pop.

Definition rule : Type := regex * ttype * option transition.

Definition CONTROL_KEYWORDS : list string :=
  [ "abort"; "assert"; "if"; "elif"; "else"; "fn"; "pred"; "let"; "match";
    "ref"; "return"; "switch"; "then"; "var"; "yield"; "ensures"; "invariant";
    "example"; "requires"; "validate"; "softcheck"; "errtest"; "chektest"
  ]%string.

Definition OTHER_KEYWORDS : list string :=
  [ "recursive"; "action"; "_debug"; "bsqon"; "example"; "do"; "fail";
    "implements"; "debug"; "release"; "safety"; "spec"; "test"; "api";
    "as"; "concept"; "const"; "declare"; "enum"; "entity"; "ensures";
    "field"; "function"; "invariant"; "method"; "namespace"; "of";
    "provides"; "requires"; "in"; "task"; "datatype"; "using"; "validate";
    "when"; "event"; "status"; "resource"; "predicate"; "softcheck";
    "errtest"; "chektest"; "operator"; "variant"
  ]%string.

Definition KEYWORDS : list string := CONTROL_KEYWORDS ++ OTHER_KEYWORDS.

Definition LANGUAGE_CONSTANTS : list string :=
  [ "none"; "true"; "false"; "fail"; "ok"; "some"; "result"; "option";
    "env"; "this"; "self" ]%string.

Definition digit : regex := Chr (in_range "0" "9").

(** [[_a-zA-Z0-9]] *)
Definition ident_char (c : ascii) : bool :=
  one_of "_" c || in_range "a" "z" c || in_range "A" "Z" c
  || in_range "0" "9" c.

(** [[A-Z]] *)
Definition upper (c : ascii) : bool := in_range "A" "Z" c.

(** [[_a-z]] *)
Definition lower_or_underscore (c : ascii) : bool :=
  one_of "_" c || in_range "a" "z" c.

(** [[a-zA-Z_]] *)
Definition ident_start (c : ascii) : bool :=
  in_range "a" "z" c || in_range "A" "Z" c || one_of "_" c.

(** [r'\b(' + '|'.join(KEYWORDS) + r')\b'] *)
Definition KEYWORDS_REGEX : regex :=
  seq [WordB; alts (map Lit KEYWORDS); WordB].

(** [r'\b(none|true|false|fail|ok|some|result|option|env|this|self)\b'] *)
Definition CONSTANTS_LANGUAGE_REGEX : regex :=
  seq [WordB; alts (map Lit LANGUAGE_CONSTANTS); WordB].

(** [\b(([0-9]+)[inIN])\b
     |\b((([0-9]+))[R]|(([0-9]+)/([0-9]+)[R]))\b
     |\b(([0-9]+\.[0-9]+([eE][-+]?[0-9]+)?[fd]))\b
     |\b([0-9]+)\b] *)
Definition CONSTANTS_NUMERIC_REGEX : regex :=
  alts
    [ seq [WordB; Plus digit; Chr (one_of "inIN"); WordB];
      seq [WordB;
           Alt (seq [Plus digit; Chr (one_of "R")])
               (seq [Plus digit; Lit "/"; Plus digit; Chr (one_of "R")]);
           WordB];
      seq [WordB; Plus digit; Lit "."; Plus digit;
           Opt (seq [Chr (one_of "eE"); Opt (Chr (one_of "-+")); Plus digit]);
           Chr (one_of "fd"); WordB];
      seq [WordB; Plus digit; WordB] ].

(** [\b((([A-Z][_a-zA-Z0-9]+)::)*([A-Z][_a-zA-Z0-9]+))\b|\b[A-Z]\b] *)
Definition TYPES_REGEX : regex :=
  Alt (seq [WordB;
            Star (seq [Chr upper; Plus (Chr ident_char); Lit "::"]);
            Chr upper; Plus (Chr ident_char);
            WordB])
      (seq [WordB; Chr upper; WordB]).

(** [\b([$]|([$]?([_a-z]|[_a-z][_a-zA-Z0-9]+)))\b] *)
Definition VARIABLES_REGEX : regex :=
  seq [WordB;
       Alt (Chr (one_of "$"))
           (seq [Opt (Chr (one_of "$"));
                 Alt (Chr lower_or_underscore)
                     (seq [Chr lower_or_underscore; Plus (Chr ident_char)])]);
       WordB].

(** A word boundary, [[a-zA-Z_]] and then [[a-zA-Z0-9_]] any number of
    times, [\s] any number of times, and a lookahead for an opening
    parenthesis, which is not consumed. *)
Definition FUNCTION_NAME_REGEX : regex :=
  seq [WordB; Chr ident_start; Star (Chr ident_char);
       Star (Chr is_space); Ahead (Lit "(")].

(** [[^*%]] and [[*/%]], the two classes of the comment states. *)
Definition not_star_percent (c : ascii) : bool := negb (one_of "*%" c).
Definition star_slash_percent (c : ascii) : bool := one_of "*/%" c.

Definition comment_rules : list rule :=
  [ (Lit "*%", Comment_Multiline, Some Pop);
    (Plus (Chr not_star_percent), Comment_Multiline, None);
    (Plus (Chr star_slash_percent), Comment_Multiline, None) ].

(** [.] without [re.DOTALL]: any character but a newline. *)
Definition dot : regex := Chr (fun c => negb (Ascii.eqb c newline)).

(** The class [[^q\\]] of a string state whose quote is [q]. *)
Definition not_quote_backslash (q c : ascii) : bool :=
  negb (Ascii.eqb c q || Ascii.eqb c backslash).

(** The [tokens] table. *)
Definition tokens (st : state) : list rule :=
  match st with
  | root =>
      [ (Plus (Chr is_space), Text, None);
        (seq [Lit "%%"; Star dot; Eol], Comment_Single, None);
        (Lit "%**", Comment_Multiline, Some (Push comment_multiline_double_dash));
        (Lit "%*", Comment_Multiline, Some (Push comment_multiline));
        (Chr (Ascii.eqb dquote), String_Double, Some (Push string_double));
        (Chr (Ascii.eqb squote), String_Single, Some (Push string_single));
        (KEYWORDS_REGEX, Keyword, None);
        (CONSTANTS_LANGUAGE_REGEX, Constant_Language, None);
        (CONSTANTS_NUMERIC_REGEX, Constant_Numeric, None);
        (TYPES_REGEX, Name_Class, None);
        (VARIABLES_REGEX, Name_Variable, None);
        (FUNCTION_NAME_REGEX, Name_Function, None);
        (Plus (Chr (one_of "+-*/=<>!")), Operator, None);
        (Chr (one_of "{}()[];,"), Punctuation, None) ]
  | comment_multiline_double_dash => comment_rules
  | comment_multiline => comment_rules
  | string_double =>
      [ (seq [Chr (Ascii.eqb backslash); Chr (Ascii.eqb squote)],
         String_Escape, None);
        (seq [Chr (Ascii.eqb backslash); dot], String_Escape, None);
        (Plus (Chr (not_quote_backslash dquote)), String_Double, None);
        (Chr (Ascii.eqb dquote), String_Double, Some Pop) ]
  | string_single =>
      [ (seq [Chr (Ascii.eqb backslash); Chr (Ascii.eqb dquote)],
         String_Escape, None);
        (seq [Chr (Ascii.eqb backslash); dot], String_Escape, None);
        (Plus (Chr (not_quote_backslash squote)), String_Single, None);
        (Chr (Ascii.eqb squote), String_Single, Some Pop) ]
  end.

(** ** The scanner of [pygments.lexer.RegexLexer]

    [BosqueLexer] inherits [get_tokens_unprocessed] from Pygments; this is
    that loop.  The state stack has its top first. *)

(** A token as the scanner yields it: position, type, text. *)
Definition token : Type := nat * ttype * list ascii.

Definition tok_pos (t : token) : nat := fst (fst t).
Definition tok_type (t : token) : ttype := snd (fst t).
Definition tok_text (t : token) : list ascii := snd t.

Definition top (stack : list state) : state := hd root stack.

(** The rules are tried in order and the first that matches wins. *)
Fixpoint first_match (rules : list rule) (prev : option ascii)
    (s : list ascii) : option (nat * ttype * option transition) :=
  match rules with
  | [] => None
  | (r, ty, tr) :: rules' =>
      match match_at r prev s with
      | Some n => Some (n, ty, tr)
      | None => first_match rules' prev s
      end
  end.

(** ['#pop'] never removes the last state of the stack. *)
Definition new_stack (tr : option transition) (stack : list state)
  : list state :=
  match tr with
  | None => stack
  | Some (Push st) => st :: stack
  | Some Pop =>
      match stack with
      | _ :: (_ :: _) as below => below
      | _ => stack
      end
  end.

(** The character before position [pos] of [text]. *)
Definition char_before (text : list ascii) (pos : nat) : option ascii :=
  match pos with
  | 0 => None
  | S p => nth_error text p
  end.

(** One iteration of the loop of [get_tokens_unprocessed]: the token that
    is yielded, with the position and the stack of the next iteration.  Where
    no rule matches, a newline resets the stack and is yielded as whitespace,
    any other character is yielded as an [Error] token, and the end of the
    text ends the loop ([None]). *)
Definition step (text : list ascii) (pos : nat) (stack : list state)
  : option (token * nat * list state) :=
  let rest := skipn pos text in
  match first_match (tokens (top stack)) (char_before text pos) rest with
  | Some (n, ty, tr) =>
      Some ((pos, ty, firstn n rest), pos + n, new_stack tr stack)
  | None =>
      match rest with
      | [] => None
      | c :: _ =>
          if Ascii.eqb c newline
          then Some ((pos, Whitespace, [c]), pos + 1, [root])
          else Some ((pos, Error, [c]), pos + 1, stack)
      end
  end.

(** The loop, one iteration per unit of [fuel].  [None]: the loop was still
    running when the fuel ran out. *)
Fixpoint scan (fuel : nat) (text : list ascii) (pos : nat)
    (stack : list state) : option (list token) :=
  match fuel with
  | 0 => None
  | S fuel' =>
      match step text pos stack with
      | Some (t, pos', stack') =>
          option_map (cons t) (scan fuel' text pos' stack')
      | None => Some []
      end
  end.

(** [get_tokens_unprocessed(text)].  Every rule of the table consumes at
    least one character, so one iteration per character and one more to see
    the end of the text are enough. *)
Definition get_tokens_unprocessed (text : list ascii) : option (list token) :=
  scan (S (length text)) text 0 [root].

(** The same on a string literal, with the token texts as strings. *)
Definition lex (text : string) : option (list (nat * ttype * string)) :=
  option_map (map (fun t => (tok_pos t, tok_type t,
                             string_of_list_ascii (tok_text t))))
    (get_tokens_unprocessed (list_ascii_of_string text)).

End BosqueLexer.

(* ================================================================== *)
(** * The operating system as the two modules see it *)
(* ================================================================== *)

Module OS.
Import Py.
Local Open Scope string_scope.

Definition path : Type := list string.

Definition os_path_join (d : path) (name : string) : path := (d ++ [name])%list.

(** [os.path.dirname] and [os.path.basename]. *)
Definition dirname (p : path) : path := removelast p.
Definition basename (p : path) : string := last p EmptyString.

(** The text of a path, as [str(path)] and the messages show it. *)
Definition path_str (p : path) : string := "/" ++ String.concat "/" p.

Fixpoint path_eqb (p q : path) : bool :=
  match p, q with
  | [], [] => true
  | a :: p', b :: q' => String.eqb a b && path_eqb p' q'
  | _, _ => false
  end.

Inductive node : Type :=
| File (content : string)
| Dir.

(** The file system: the entries in the order in which the operating system
    enumerates them.  The first entry of a path is the one that counts. *)
Definition fs : Type := list (path * node).

Fixpoint lookup (f : fs) (p : path) : option node :=
  match f with
  | [] => None
  | (q, n) :: f' => if path_eqb q p then Some n else lookup f' p
  end.

Definition exists_ (f : fs) (p : path) : bool :=
  match lookup f p with Some _ => true | None => false end.

Definition isdir (f : fs) (p : path) : bool :=
  match lookup f p with Some Dir => true | _ => false end.

Definition isfile (f : fs) (p : path) : bool :=
  match lookup f p with Some (File _) => true | _ => false end.

(** Bind [p] to [n]: in place when [p] has an entry, as a new last entry
    otherwise. *)
Definition store (f : fs) (p : path) (n : node) : fs :=
  if exists_ f p
  then map (fun e => if path_eqb (fst e) p then (fst e, n) else e) f
  else (f ++ [(p, n)])%list.

Definition unlink (f : fs) (p : path) : fs :=
  filter (fun e => negb (path_eqb (fst e) p)) f.

(** [name.endswith(suffix)] *)
Definition endswith (name suffix : string) : bool :=
  (String.length suffix <=? String.length name)%nat
  && String.eqb
       (substring (String.length name - String.length suffix)
          (String.length suffix) name)
       suffix.

(** The entries of the directory [d], in enumeration order. *)
Definition listdir (f : fs) (d : path) : list path :=
  filter (fun p =>
      match p with
      | [] => false
      | _ :: _ => path_eqb (dirname p) d
      end) (map fst f).

(** The paths [Path(d).glob('*' + suffix)] yields: the entries of [d] whose
    name ends with [suffix], in enumeration order; nothing when [d] is not a
    directory. *)
Definition glob_suffix (f : fs) (d : path) (suffix : string) : list path :=
  if isdir f d
  then filter (fun p => endswith (basename p) suffix) (listdir f d)
  else [].

(** ** Exceptions *)

Inductive exn_class : Type :=
| BosqueExecutionError
| RuntimeError
| NameError
| UnboundLocalError
| TypeError
| OSError
| FileNotFoundError
| FileExistsError
| IsADirectoryError
| NotADirectoryError
| PermissionError.

(** [type(e).__name__] *)
Definition class_name (c : exn_class) : string :=
  match c with
  | BosqueExecutionError => "BosqueExecutionError"
  | RuntimeError => "RuntimeError"
  | NameError => "NameError"
  | UnboundLocalError => "UnboundLocalError"
  | TypeError => "TypeError"
  | OSError => "OSError"
  | FileNotFoundError => "FileNotFoundError"
  | FileExistsError => "FileExistsError"
  | IsADirectoryError => "IsADirectoryError"
  | NotADirectoryError => "NotADirectoryError"
  | PermissionError => "PermissionError"
  end.

(** [issubclass(c, OSError)].  Every class above is a subclass of
    [Exception]. *)
Definition is_OSError (c : exn_class) : bool :=
  match c with
  | OSError | FileNotFoundError | FileExistsError | IsADirectoryError
  | NotADirectoryError | PermissionError => true
  | _ => false
  end.

Definition is_BosqueExecutionError (c : exn_class) : bool :=
  match c with BosqueExecutionError => true | _ => false end.

Definition is_FileExistsError (c : exn_class) : bool :=
  match c with FileExistsError => true | _ => false end.

(** An exception: its class, [str(e)], and [e.__context__], the exception
    that was being handled when it was raised. *)
Inductive exn : Type :=
| Exn (cls : exn_class) (msg : string) (context : option exn).

Definition exn_cls (e : exn) : exn_class := let 'Exn c _ _ := e in c.
Definition exn_str (e : exn) : string := let 'Exn _ m _ := e in m.

(** ** Values sent to the front end *)

Inductive pyval : Type :=
| VStr (s : string)
| VInt (n : nat)
| VList (l : list pyval)
| VDict (d : list (string * pyval)).

(** [d[key]] on a dict written as its list of items. *)
Fixpoint dict_get (d : list (string * pyval)) (key : string) : option pyval :=
  match d with
  | [] => None
  | (k, v) :: d' => if String.eqb k key then Some v else dict_get d' key
  end.

(** ** Child processes *)

(** [subprocess.CompletedProcess] with captured text output. *)
Record CompletedProcess : Type := {
  returncode : Z;
  stdout : string;
  stderr : string
}.

(** A child process that ran to its end: its command line, its working
    directory, the file system it started in, the one it left, and what it
    returned. *)
Record process : Type := {
  p_args : list string;
  p_cwd : path;
  p_fs_before : fs;
  p_fs_after : fs;
  p_completed : CompletedProcess
}.

(** ** The world and the monad *)

Record world : Type := {
  w_fs : fs;
  w_cwd : path;
  w_iopub : list (string * pyval);
  w_procs : list process
}.

Definition with_fs (w : world) (f : fs) : world :=
  {| w_fs := f; w_cwd := w_cwd w; w_iopub := w_iopub w; w_procs := w_procs w |}.

Definition with_cwd (w : world) (d : path) : world :=
  {| w_fs := w_fs w; w_cwd := d; w_iopub := w_iopub w; w_procs := w_procs w |}.

Inductive result (A : Type) : Type :=
| Ok (a : A)
| Raise (e : exn).
Arguments Ok {A} a.
Arguments Raise {A} e.

Definition M (A : Type) : Type := world -> result A * world.

Definition ret {A} (a : A) : M A := fun w => (Ok a, w).

Definition bind {A B} (m : M A) (k : A -> M B) : M B :=
  fun w =>
    match m w with
    | (Ok a, w') => k a w'
    | (Raise e, w') => (Raise e, w')
    end.

Definition raise {A} (e : exn) : M A := fun w => (Raise e, w).

(** [try: body  except ... as e: handler e].  A handler that does not catch
    [e] raises it again; what a handler raises is not caught here. *)
Definition try_except {A} (body : M A) (handler : exn -> M A) : M A :=
  fun w =>
    match body w with
    | (Ok a, w') => (Ok a, w')
    | (Raise e, w') => handler e w'
    end.

Definition when (b : bool) (m : M unit) : M unit :=
  if b then m else ret tt.

Declare Scope py_scope.
Delimit Scope py_scope with py.
Notation "x <- m ;; k" := (bind m (fun x => k))
  (at level 61, m at next level, right associativity) : py_scope.
Notation "m ;; k" := (bind m (fun _ => k))
  (at level 61, right associativity) : py_scope.
Local Open Scope py_scope.

(** A new exception, raised outside any handler. *)
Definition error (c : exn_class) (msg : string) : exn := Exn c msg None.

(** A new exception raised while [handled] is being handled. *)
Definition error_in (handled : exn) (c : exn_class) (msg : string) : exn :=
  Exn c msg (Some handled).

Definition errno_msg (what : string) (p : path) : string :=
  what ++ ": '" ++ path_str p ++ "'".

(** ** System calls *)

Definition os_path_exists (p : path) : M bool := fun w => (Ok (exists_ (w_fs w) p), w).
Definition os_path_isdir (p : path) : M bool := fun w => (Ok (isdir (w_fs w) p), w).
Definition os_path_isfile (p : path) : M bool := fun w => (Ok (isfile (w_fs w) p), w).

(** [with open(p, 'w') as f: f.write(content)] *)
Definition open_write (p : path) (content : string) : M unit :=
  fun w =>
    match lookup (w_fs w) (dirname p) with
    | None => (Raise (error FileNotFoundError
                        (errno_msg "[Errno 2] No such file or directory" p)), w)
    | Some (File _) => (Raise (error NotADirectoryError
                        (errno_msg "[Errno 20] Not a directory" p)), w)
    | Some Dir =>
        if isdir (w_fs w) p
        then (Raise (error IsADirectoryError
                       (errno_msg "[Errno 21] Is a directory" p)), w)
        else (Ok tt, with_fs w (store (w_fs w) p (File content)))
    end.

Definition os_mkdir (p : path) : M unit :=
  fun w =>
    if exists_ (w_fs w) p
    then (Raise (error FileExistsError
                   (errno_msg "[Errno 17] File exists" p)), w)
    else
      match lookup (w_fs w) (dirname p) with
      | None => (Raise (error FileNotFoundError
                          (errno_msg "[Errno 2] No such file or directory" p)), w)
      | Some (File _) => (Raise (error NotADirectoryError
                          (errno_msg "[Errno 20] Not a directory" p)), w)
      | Some Dir => (Ok tt, with_fs w (store (w_fs w) p Dir))
      end.

(** [os.makedirs(name, exist_ok=True)], on the components of [name] from the
    last to the first: a missing parent is made first (a [FileExistsError]
    from that is passed over), then [name] itself, where an [OSError] is
    passed over when [name] is a directory. *)
Fixpoint makedirs_rev (rev_name : list string) : M unit :=
  let name := rev rev_name in
  match rev_name with
  | [] => ret tt
  | _ :: rev_head =>
      present <- os_path_exists (rev rev_head) ;;
      when (negb present)
        (try_except (makedirs_rev rev_head)
           (fun e => if is_FileExistsError (exn_cls e) then ret tt else raise e))
  end ;;
  try_except (os_mkdir name)
    (fun e =>
       if is_OSError (exn_cls e)
       then isd <- os_path_isdir name ;;
            if negb isd then raise e else ret tt
       else raise e).

Definition os_makedirs_exist_ok (name : path) : M unit := makedirs_rev (rev name).

Definition os_remove (p : path) : M unit :=
  fun w =>
    match lookup (w_fs w) p with
    | Some (File _) => (Ok tt, with_fs w (unlink (w_fs w) p))
    | Some Dir => (Raise (error IsADirectoryError
                            (errno_msg "[Errno 21] Is a directory" p)), w)
    | None => (Raise (error FileNotFoundError
                        (errno_msg "[Errno 2] No such file or directory" p)), w)
    end.

Definition glob (d : path) (suffix : string) : M (list path) :=
  fun w => (Ok (glob_suffix (w_fs w) d suffix), w).

Definition os_getcwd : M path :=
  fun w =>
    if isdir (w_fs w) (w_cwd w)
    then (Ok (w_cwd w), w)
    else (Raise (error FileNotFoundError
                   "[Errno 2] No such file or directory"), w).

Definition os_chdir (p : path) : M unit :=
  fun w =>
    match lookup (w_fs w) p with
    | Some Dir => (Ok tt, with_cwd w p)
    | Some (File _) => (Raise (error NotADirectoryError
                                 (errno_msg "[Errno 20] Not a directory" p)), w)
    | None => (Raise (error FileNotFoundError
                        (errno_msg "[Errno 2] No such file or directory" p)), w)
    end.

(** [self.send_response(self.iopub_socket, msg_type, content)]: the message
    is handed to ipykernel, which is taken not to fail. *)
Definition send_response (msg_type : string) (content : pyval) : M unit :=
  fun w =>
    (Ok tt, {| w_fs := w_fs w; w_cwd := w_cwd w;
               w_iopub := (w_iopub w ++ [(msg_type, content)])%list;
               w_procs := w_procs w |}).

(** What the programs outside do is not fixed: a child process is any
    function from its command line, working directory and file system to a
    completed process (or an exception of [subprocess.run]) and a new file
    system. *)
Definition process_oracle : Type :=
  list string -> path -> fs -> result CompletedProcess * fs.

(** [subprocess.run(args, capture_output=True, text=True, cwd=cwd)] *)
Definition subprocess_run (run : process_oracle) (args : list string)
    (cwd : path) : M CompletedProcess :=
  fun w =>
    match run args cwd (w_fs w) with
    | (Ok cp, f') =>
        (Ok cp, {| w_fs := f'; w_cwd := w_cwd w; w_iopub := w_iopub w;
                   w_procs := (w_procs w ++
                     [{| p_args := args; p_cwd := cwd; p_fs_before := w_fs w;
                         p_fs_after := f'; p_completed := cp |}])%list |})
    | (Raise e, f') => (Raise e, with_fs w f')
    end.

(** [d] is [p] or lies above it. *)
Fixpoint is_prefix (d p : path) : bool :=
  match d, p with
  | [], _ => true
  | a :: d', b :: p' => String.eqb a b && is_prefix d' p'
  | _ :: _, [] => false
  end.

(** [shutil.rmtree(d, ignore_errors=True)]: a directory goes with all that
    is below it; on anything else the call fails, and the failure is
    ignored. *)
Definition shutil_rmtree_ignore_errors (d : path) : M unit :=
  fun w =>
    if isdir (w_fs w) d
    then (Ok tt, with_fs w (filter (fun e => negb (is_prefix d (fst e)))
                              (w_fs w)))
    else (Ok tt, w).

End OS.

(* ================================================================== *)
(** * wrapper.py *)
(* ================================================================== *)

Module Wrapper.
Import Py OS.
Local Open Scope string_scope.
Local Open Scope py_scope.

Record BosqueWrapper : Type := {
  bosque_command : string;
  node_command : string;
  main_js_filename : string
}.

(** [BosqueWrapper()] with the default arguments of [__init__]. *)
Definition new_wrapper : BosqueWrapper :=
  {| bosque_command := "bosque"; node_command := "node";
     main_js_filename := "Main.mjs" |}.

Section WithProcesses.
Variable run : process_oracle.

Definition compile_bosque (self : BosqueWrapper) (bosque_code : string)
    (work_dir : path) : M path :=
  let source_file_path := os_path_join work_dir "source.bsq" in
  open_write source_file_path bosque_code ;;
  let output_dir := os_path_join work_dir "jsout" in
  os_makedirs_exist_ok output_dir ;;
  compile_proc <- subprocess_run run
                    [bosque_command self; path_str source_file_path] work_dir ;;
  os_remove source_file_path ;;
  if negb (returncode compile_proc =? 0)%Z
  then
    let error_msg :=
      str_or (strip (stderr compile_proc)) "Unknown compilation error." in
    raise (error BosqueExecutionError ("Compilation failed: " ++ error_msg))
  else
    isd <- os_path_isdir output_dir ;;
    if negb isd
    then raise (error BosqueExecutionError
                  ("Compilation succeeded but output directory '"
                   ++ path_str output_dir ++ "' was not found."))
    else ret output_dir.

Definition find_main_js (self : BosqueWrapper) (output_dir : path) : M path :=
  let main_js_path := os_path_join output_dir (main_js_filename self) in
  isf <- os_path_isfile main_js_path ;;
  if negb isf
  then
    mjs <- glob output_dir ".mjs" ;;
    js <- glob output_dir ".js" ;;
    let js_files := (mjs ++ js)%list in
    match js_files with
    | first :: _ => ret first
    | [] => raise (error BosqueExecutionError
                     ("Main JavaScript file '" ++ main_js_filename self
                      ++ "' not found in '" ++ path_str output_dir ++ "'."))
    end
  else ret main_js_path.

Definition execute_js (self : BosqueWrapper) (js_path : path)
    (work_dir : path) : M string :=
  execute_proc <- subprocess_run run
                    [node_command self; path_str js_path] work_dir ;;
  if negb (returncode execute_proc =? 0)%Z
  then
    let error_msg :=
      str_or (strip (stderr execute_proc)) "Unknown execution error." in
    raise (error BosqueExecutionError ("Execution failed: " ++ error_msg))
  else ret (stdout execute_proc).

Definition compile_and_execute (self : BosqueWrapper) (bosque_code : string)
    (work_dir : path) : M string :=
  output_dir <- compile_bosque self bosque_code work_dir ;;
  main_js <- find_main_js self output_dir ;;
  output <- execute_js self main_js work_dir ;;
  ret output.

End WithProcesses.

End Wrapper.

(* ================================================================== *)
(** * kernel.py *)
(* ================================================================== *)

Module Kernel.
Import Py OS Wrapper.
Local Open Scope string_scope.
Local Open Scope py_scope.

Record BosqueKernel : Type := {
  bosque : BosqueWrapper;
  temp_dir : option path;
  execution_count : nat
}.

(** Evaluating a name that is bound nowhere, inside the handler of
    [handled]. *)
Definition unbound_name {A} (name : string) (handled : exn) : M A :=
  raise (error_in handled NameError ("name '" ++ name ++ "' is not defined")).

(** [not x] for the result of [shutil.which]. *)
Definition falsy (x : option string) : bool :=
  match x with
  | None => true
  | Some s => String.eqb s EmptyString
  end.

Section WithEnvironment.
(** [tempfile.mkdtemp(prefix=...)] and [shutil.which] are left open, like the
    child processes. *)
Variable mkdtemp : string -> M path.
Variable which : string -> option string.
Variable run : process_oracle.

(** [BosqueKernel.__init__] *)
Definition init : M BosqueKernel :=
  try_except
    (let bosque := new_wrapper in
     temp_dir <- try_except (mkdtemp "bosque_kernel_")
                   (fun e => raise (error_in e RuntimeError
                                      "Cannot create temporary directory.")) ;;
     let bosque_path := which "bosque" in
     if falsy bosque_path
     then raise (error RuntimeError "'bosque' executable not found in PATH.")
     else
       let node_path := which "node" in
       if falsy node_path
       then raise (error RuntimeError "'node' executable not found in PATH.")
       else ret {| bosque := bosque; temp_dir := Some temp_dir;
                   execution_count := 0 |})
    (fun e => (* raise es *) unbound_name "es" e).

(** [_compile_and_execute]: every exception of the wrapper comes out as a
    [BosqueExecutionError]. *)
Definition _compile_and_execute (self : BosqueKernel) (code : string) : M string :=
  try_except
    (match temp_dir self with
     | Some work_dir => compile_and_execute run (bosque self) code work_dir
     | None => raise (error TypeError
                        "expected str, bytes or os.PathLike object, not NoneType")
     end)
    (fun e => raise (error_in e BosqueExecutionError
                       ("Execution failed: " ++ exn_str e))).

Definition send_error (exception : exn) : M unit :=
  let ename := class_name (exn_cls exception) in
  let evalue := exn_str exception in
  send_response "error"
    (VDict [("ename", VStr ename); ("evalue", VStr evalue);
            ("traceback", VList [])]).

(** [os.chdir(original_cwd)] in a handler, where the local [original_cwd] is
    bound only if [os.getcwd()] returned. *)
Definition restore_cwd (original_cwd : option path) (handled : exn) : M unit :=
  match original_cwd with
  | Some d => os_chdir d
  | None => raise (error_in handled UnboundLocalError
              "cannot access local variable 'original_cwd' where it is not associated with a value")
  end.

(** The two [except] clauses of [do_execute], tried in order. *)
Definition do_execute_handlers (self : BosqueKernel) (silent : bool)
    (original_cwd : option path) (e : exn) : M pyval :=
  if is_BosqueExecutionError (exn_cls e)
  then
    when (negb silent) (send_error e) ;;
    restore_cwd original_cwd e ;;
    ret (VDict [("status", VStr "error");
                ("execution_count", VInt (execution_count self));
                ("ename", VStr "BosqueExecutionError");
                ("evalue", VStr (exn_str e));
                ("traceback", VList [])])
  else
    when (negb silent) (send_error e) ;;
    restore_cwd original_cwd e ;;
    ret (VDict [("status", VStr "error");
                ("execution_count", VInt (execution_count self));
                ("ename", VStr (class_name (exn_cls e)));
                ("evalue", VStr (exn_str e));
                ("traceback", VList [])]).

(** The body of the [try] of [do_execute] after [original_cwd] is bound. *)
Definition do_execute_body (self : BosqueKernel) (code : string)
    (silent : bool) (original_cwd : path) : M pyval :=
  try_except
    (match temp_dir self with
     | Some d => os_chdir d
     | None => raise (error TypeError
                        "chdir: path should be string, bytes or os.PathLike, not NoneType")
     end)
    (fun e => if is_OSError (exn_cls e)
              then raise (error_in e RuntimeError
                            "Failed to change working directory.")
              else raise e) ;;
  output <- _compile_and_execute self code ;;
  when (negb silent)
    (send_response "stream"
       (VDict [("name", VStr "stdout"); ("text", VStr output)])) ;;
  os_chdir original_cwd ;;
  when (negb silent)
    (send_response "status" (VDict [("execution_state", VStr "idle")])) ;;
  ret (VDict [("status", VStr "ok");
              ("execution_count", VInt (execution_count self));
              ("payload", VList []);
              ("user_expressions", VDict [])]).

Definition do_execute (self : BosqueKernel) (code : string) (silent : bool)
  : M pyval :=
  when (negb silent)
    (send_response "status" (VDict [("execution_state", VStr "busy")])) ;;
  fun w =>
    match os_getcwd w with
    | (Raise e, w') => do_execute_handlers self silent None e w'
    | (Ok original_cwd, w') =>
        try_except (do_execute_body self code silent original_cwd)
          (do_execute_handlers self silent (Some original_cwd)) w'
    end.

End WithEnvironment.

(** [do_shutdown]: the scratch directory is removed; the reply of the base
    class is not returned, so the method returns [None]. *)
Definition do_shutdown (self : BosqueKernel) (restart : bool) : M unit :=
  match temp_dir self with
  | Some d => shutil_rmtree_ignore_errors d
  | None => ret tt
  end.

End Kernel.

(* ================================================================== *)
(** * The vocabulary of the properties *)
(* ================================================================== *)

Module Props.
Import Py Regex BosqueLexer OS Wrapper Kernel.

(** ** Characters and matches *)



(** ** Tokens *)















(** ** Worlds *)

(** Only the file system differs between the two worlds. *)
Definition same_session (w w' : world) : Prop :=
  w_cwd w' = w_cwd w /\ w_iopub w' = w_iopub w /\ w_procs w' = w_procs w.

(** Every directory of [f] is a directory of [f']. *)
Definition dirs_kept (f f' : fs) : Prop :=
  forall p, isdir f p = true -> isdir f' p = true.

(** Every entry of [f] is an entry of [f']. *)
Definition grows (f f' : fs) : Prop :=
  forall p n, lookup f p = Some n -> lookup f' p = Some n.

Local Open Scope string_scope.


(** The child processes never take the directory [d0] away. *)
Definition keeps (run : process_oracle) (d0 : path) : Prop :=
  forall args cwd f, isdir f d0 = true -> isdir (snd (run args cwd f)) d0 = true.

(** If [d0] is a directory in [w] it is one in [w']. *)
Definition dir_stays (d0 : path) (w w' : world) : Prop :=
  isdir (w_fs w) d0 = true -> isdir (w_fs w') d0 = true.

(** Every run of [m] is related by [I]. *)
Definition preserves {A} (I : world -> world -> Prop) (m : M A) : Prop :=
  forall w r w', m w = (r, w') -> I w w'.

(** The reply of [do_execute] for an error. *)
Definition error_reply (self : BosqueKernel) (ename evalue : string) : pyval :=
  VDict [("status", VStr "error");
         ("execution_count", VInt (execution_count self));
         ("ename", VStr ename);
         ("evalue", VStr evalue);
         ("traceback", VList [])].

Definition busy : pyval := VDict [("execution_state", VStr "busy")].

(** The world in which [do_execute] calls the wrapper: the busy message is
    sent unless the request is silent, and the working directory is [d]. *)
Definition at_wrapper_entry (silent : bool) (d : path) (w : world) : world :=
  with_cwd (snd (when (negb silent) (send_response "status" busy) w)) d.

(** ** More of the wrapper and the kernel *)

(** A program that [subprocess.run] could not run has changed nothing. *)
Definition fails_cleanly (run : process_oracle) : Prop :=
  forall args cwd f e f', run args cwd f = (Raise e, f') -> f' = f.

(** No message was sent between the two worlds. *)
Definition quiet (w w' : world) : Prop := w_iopub w' = w_iopub w.

(** The reply of [do_execute] for a success, and the messages it sends. *)
Definition ok_reply (self : BosqueKernel) : pyval :=
  VDict [("status", VStr "ok");
         ("execution_count", VInt (execution_count self));
         ("payload", VList []);
         ("user_expressions", VDict [])].

Definition busy_msg : string * pyval := ("status", busy).

Definition idle_msg : string * pyval :=
  ("status", VDict [("execution_state", VStr "idle")]).

Definition stream_msg (output : string) : string * pyval :=
  ("stream", VDict [("name", VStr "stdout"); ("text", VStr output)]).

Definition error_msg (ename evalue : string) : string * pyval :=
  ("error", VDict [("ename", VStr ename); ("evalue", VStr evalue);
                   ("traceback", VList [])]).

(** ** More of the lexer *)














End Props.

(* ================================================================== *)
(** * Sample worlds and programs *)
(* ================================================================== *)

Module Examples.
Import Py OS Wrapper Kernel.
Local Open Scope string_scope.

Definition home : path := ["home"; "user"].
Definition scratch : path := ["tmp"; "bosque_kernel_0"].

Definition cell : string :=
  "namespace Main; public function main(): Int { return 1i; }".

(** A scratch directory that was just made. *)
Definition fresh_fs : fs :=
  [([], Dir); (["home"], Dir); (home, Dir); (["tmp"], Dir); (scratch, Dir)].

(** The same with an output directory that holds [foo.mjs] only. *)
Definition compiled_fs : fs :=
  (fresh_fs ++ [(os_path_join scratch "jsout", Dir);
                (os_path_join (os_path_join scratch "jsout") "foo.mjs",
                 File "console.log(1);")])%list.

Definition world_of (f : fs) : world :=
  {| w_fs := f; w_cwd := home; w_iopub := []; w_procs := [] |}.

Definition line (s : string) : string := s ++ String newline EmptyString.

(** A compiler that rejects its input, as compilers do: one line on the
    standard error, ended by a newline, and return code 1. *)
Definition compiler_rejects : process_oracle :=
  fun _ _ f =>
    (Ok {| returncode := 1; stdout := EmptyString;
           stderr := line "parse error at line 3" |}, f).

(** Programs that all return 0 and print one line. *)
Definition tools_succeed : process_oracle :=
  fun _ _ f =>
    (Ok {| returncode := 0; stdout := line "1i"; stderr := EmptyString |}, f).

(** A compiler that returns 0 and a runtime that fails. *)
Definition runtime_fails : process_oracle :=
  fun args _ f =>
    match args with
    | "bosque" :: _ =>
        (Ok {| returncode := 0; stdout := EmptyString; stderr := EmptyString |}, f)
    | _ =>
        (Ok {| returncode := 1; stdout := EmptyString;
               stderr := line "Error: abort" |}, f)
    end.

Definition kernel0 : BosqueKernel :=
  {| bosque := new_wrapper; temp_dir := Some scratch; execution_count := 1 |}.

(** An environment in which a scratch directory can be made and nothing is
    on the search path. *)
Definition mkdtemp0 (prefix : string) : M path :=
  fun w => (Ok ["tmp"; prefix ++ "0"], w).

Definition nothing_on_path (name : string) : option string := None.

(** The first of a list of processes. *)
Definition hd_process (l : list process) : process :=
  hd {| p_args := []; p_cwd := []; p_fs_before := []; p_fs_after := [];
        p_completed := {| returncode := 0; stdout := EmptyString;
                          stderr := EmptyString |} |} l.

Definition snd_process (l : list process) : process := hd_process (tl l).

(** An output directory that holds [Main.mjs] next to [foo.mjs]. *)
Definition main_fs : fs :=
  (compiled_fs
   ++ [(os_path_join (os_path_join scratch "jsout") "Main.mjs",
        File "console.log(2);")])%list.

(** What a program returns, started with no arguments in the root of an
    empty file system. *)
Definition fst_completed (run : process_oracle) : CompletedProcess :=
  match fst (run [] [] []) with
  | Ok cp => cp
  | Raise _ => {| returncode := 0; stdout := EmptyString; stderr := EmptyString |}
  end.

(** A program that cannot be started. *)
Definition program_missing : process_oracle :=
  fun _ _ f =>
    (Raise (error FileNotFoundError
              "[Errno 2] No such file or directory: 'bosque'"), f).

(** An output directory in which a [.js] file comes before a [.mjs] file. *)
Definition mixed_fs : fs :=
  (fresh_fs ++ [(os_path_join scratch "jsout", Dir);
                (os_path_join (os_path_join scratch "jsout") "a.js",
                 File "console.log(1);");
                (os_path_join (os_path_join scratch "jsout") "b.mjs",
                 File "console.log(2);")])%list.

(** The scratch directory has been removed. *)
Definition gone_fs : fs :=
  [([], Dir); (["home"], Dir); (home, Dir); (["tmp"], Dir)].

(** A kernel that has no scratch directory. *)
Definition kernel_without_scratch : BosqueKernel :=
  {| bosque := new_wrapper; temp_dir := None; execution_count := 1 |}.

(** A world whose working directory has been removed. *)
Definition lost_world : world :=
  {| w_fs := [([], Dir)]; w_cwd := home; w_iopub := []; w_procs := [] |}.













End Examples.

(* ================================================================== *)
(** * Facts about characters *)
(* ================================================================== *)

Module PyFacts.
Import Py Props.





End PyFacts.

(* ================================================================== *)
(** * Facts about the matcher *)
(* ================================================================== *)

Module RegexFacts.
Import Py Regex Props.







(** ** Bounds on the length of a match *)







(** ** A character class, repeated *)












(** ** Literals and alternations of literals *)




End RegexFacts.

(* ================================================================== *)
(** * Facts about the scanner *)
(* ================================================================== *)

Module LexerFacts.
Import Py Regex BosqueLexer Props PyFacts RegexFacts.











(** ** What holds of every token *)



(** ** Building matches *)







(** ** The characters of identifiers are word characters *)












(** ** From a position reached to the whole scan *)





(** ** Keywords and constants between word boundaries *)









(** ** Literals and comments that are not closed *)

















End LexerFacts.

(* ================================================================== *)
(** * Facts about the system calls *)
(* ================================================================== *)

Module OSFacts.
Import Py OS Props.
Local Open Scope py_scope.

Lemma path_eqb_eq p q : path_eqb p q = true <-> p = q.
Proof.
  revert q. induction p as [|a p IH]; intros [|b q]; simpl;
    try (split; [discriminate | congruence]); [now split|].
  rewrite andb_true_iff, String.eqb_eq, IH. split.
  - now intros [-> ->].
  - now intros [= -> ->].
Qed.

Lemma path_eqb_refl p : path_eqb p p = true.
Proof. now apply path_eqb_eq. Qed.

Lemma lookup_app f g p :
  lookup (f ++ g) p = match lookup f p with Some n => Some n | None => lookup g p end.
Proof.
  induction f as [|[q n] f IH]; simpl; [reflexivity|].
  now destruct (path_eqb q p).
Qed.

Lemma lookup_replace f p n q :
  lookup (map (fun e => if path_eqb (fst e) p then (fst e, n) else e) f) q
  = if path_eqb p q
    then match lookup f p with Some _ => Some n | None => None end
    else lookup f q.
Proof.
  induction f as [|[r k] f IH]; simpl.
  - now destruct (path_eqb p q).
  - destruct (path_eqb r p) eqn:Erp; simpl.
    + apply path_eqb_eq in Erp as ->.
      destruct (path_eqb p q) eqn:Epq; [reflexivity | exact IH].
    + rewrite IH. destruct (path_eqb p q) eqn:Epq.
      * apply path_eqb_eq in Epq as <-. now rewrite Erp.
      * reflexivity.
Qed.

Lemma lookup_store f p n q :
  lookup (store f p n) q = if path_eqb p q then Some n else lookup f q.
Proof.
  unfold store, exists_. destruct (lookup f p) as [m|] eqn:E.
  - now rewrite lookup_replace, E.
  - rewrite lookup_app. simpl.
    destruct (path_eqb p q) eqn:Epq.
    + apply path_eqb_eq in Epq as <-. now rewrite E.
    + now destruct (lookup f q).
Qed.

Lemma lookup_unlink f p q :
  lookup (unlink f p) q = if path_eqb p q then None else lookup f q.
Proof.
  unfold unlink. induction f as [|[r k] f IH]; simpl.
  - now destruct (path_eqb p q).
  - destruct (path_eqb r p) eqn:Erp; simpl.
    + apply path_eqb_eq in Erp as ->. rewrite IH.
      now destruct (path_eqb p q).
    + rewrite IH. destruct (path_eqb p q) eqn:Epq; [|reflexivity].
      apply path_eqb_eq in Epq as <-. now rewrite Erp.
Qed.

(** ** What a call leaves alone *)

Lemma same_session_refl w : same_session w w.
Proof. now repeat split. Qed.

Lemma same_session_trans w1 w2 w3 :
  same_session w1 w2 -> same_session w2 w3 -> same_session w1 w3.
Proof. unfold same_session. intuition congruence. Qed.

Lemma grows_refl f : grows f f.
Proof. now intros p n. Qed.

Lemma grows_trans f g h : grows f g -> grows g h -> grows f h.
Proof. unfold grows. auto. Qed.

Lemma grows_dirs_kept f f' : grows f f' -> dirs_kept f f'.
Proof.
  intros H p. unfold isdir. destruct (lookup f p) as [[c|]|] eqn:E;
    try discriminate. now rewrite (H _ _ E).
Qed.

Lemma dirs_kept_refl f : dirs_kept f f.
Proof. now intros p. Qed.

Lemma open_write_spec p content w r w' :
  open_write p content w = (r, w') ->
  same_session w w'
  /\ ((r = Ok tt /\ w_fs w' = store (w_fs w) p (File content)
       /\ isdir (w_fs w) p = false)
      \/ ((exists e, r = Raise e) /\ w' = w)).
Proof.
  unfold open_write.
  destruct (lookup (w_fs w) (dirname p)) as [[c|]|];
    try (intros [= <- <-]; split; [apply same_session_refl | right; eauto]).
  destruct (isdir (w_fs w) p) eqn:E; intros [= <- <-].
  - split; [apply same_session_refl | right; eauto].
  - split; [now repeat split | now left].
Qed.

Lemma store_file_dirs_kept f p content :
  isdir f p = false -> dirs_kept f (store f p (File content)).
Proof.
  intros Hp q Hq. unfold isdir in *. rewrite lookup_store.
  destruct (path_eqb p q) eqn:E; [|assumption].
  apply path_eqb_eq in E as <-. congruence.
Qed.

Lemma store_new_grows f p n : exists_ f p = false -> grows f (store f p n).
Proof.
  intros Hp q m Hq. rewrite lookup_store.
  destruct (path_eqb p q) eqn:E; [|assumption].
  apply path_eqb_eq in E as <-. unfold exists_ in Hp. now rewrite Hq in Hp.
Qed.

Lemma os_mkdir_spec p w r w' :
  os_mkdir p w = (r, w') -> same_session w w' /\ grows (w_fs w) (w_fs w').
Proof.
  unfold os_mkdir. destruct (exists_ (w_fs w) p) eqn:E.
  - intros [= <- <-]. split; [apply same_session_refl | apply grows_refl].
  - destruct (lookup (w_fs w) (dirname p)) as [[c|]|]; intros [= <- <-];
      try (split; [apply same_session_refl | apply grows_refl]).
    split; [now repeat split | now apply store_new_grows].
Qed.

Lemma makedirs_rev_spec : forall rp w r w',
  makedirs_rev rp w = (r, w') -> same_session w w' /\ grows (w_fs w) (w_fs w').
Proof.
  induction rp as [|tail rp IH]; intros w r w'.
  - cbn [makedirs_rev]. unfold bind, ret, try_except.
    destruct (os_mkdir (rev []) w) as [[[]|e] w1] eqn:E1.
    + intros [= <- <-]. now apply os_mkdir_spec in E1.
    + apply os_mkdir_spec in E1 as [Hs Hg].
      destruct (is_OSError (exn_cls e)); unfold os_path_isdir, raise, ret.
      * destruct (negb (isdir (w_fs w1) (rev []))); intros [= <- <-]; now split.
      * intros [= <- <-]. now split.
  - cbn [makedirs_rev]. unfold bind at 1 2. unfold os_path_exists at 1.
    assert (Hhead : forall rh wh,
               when (negb (exists_ (w_fs w) (rev rp)))
                 (try_except (makedirs_rev rp)
                    (fun e => if is_FileExistsError (exn_cls e)
                              then ret tt else raise e)) w = (rh, wh) ->
               same_session w wh /\ grows (w_fs w) (w_fs wh)).
    { intros rh wh. unfold when, try_except, ret, raise.
      destruct (negb (exists_ (w_fs w) (rev rp))).
      - destruct (makedirs_rev rp w) as [[[]|e] w1] eqn:E1;
          apply IH in E1.
        + now intros [= <- <-].
        + destruct (is_FileExistsError (exn_cls e)); now intros [= <- <-].
      - intros [= <- <-]. split; [apply same_session_refl | apply grows_refl]. }
    destruct (when _ _ w) as [[[]|e] w1] eqn:E1;
      destruct (Hhead _ _ eq_refl) as [Hs1 Hg1].
    + unfold try_except.
      destruct (os_mkdir (rev (tail :: rp)) w1) as [[[]|e] w2] eqn:E2;
        apply os_mkdir_spec in E2 as [Hs2 Hg2].
      * intros [= <- <-]. split;
          [eapply same_session_trans | eapply grows_trans]; eassumption.
      * assert (same_session w w2 /\ grows (w_fs w) (w_fs w2)) as Hboth
          by (split; [eapply same_session_trans | eapply grows_trans];
              eassumption).
        destruct (is_OSError (exn_cls e)); unfold bind, os_path_isdir, raise, ret.
        -- destruct (negb (isdir (w_fs w2) (rev (tail :: rp))));
             now intros [= <- <-].
        -- now intros [= <- <-].
    + intros [= <- <-]. now split.
Qed.

Lemma os_remove_spec p w r w' :
  os_remove p w = (r, w') ->
  same_session w w' /\ isfile (w_fs w') p = false
  /\ dirs_kept (w_fs w) (w_fs w')
  /\ ((r = Ok tt /\ isfile (w_fs w) p = true /\ w_fs w' = unlink (w_fs w) p)
      \/ ((exists e, r = Raise e) /\ isfile (w_fs w) p = false /\ w' = w)).
Proof.
  unfold os_remove, isfile. destruct (lookup (w_fs w) p) as [[c|]|] eqn:E;
    intros [= <- <-]; cbn [w_fs with_fs].
  - split; [now repeat split|]. rewrite lookup_unlink, path_eqb_refl.
    split; [reflexivity|]. split; [|now left].
    intros q. unfold isdir. rewrite lookup_unlink.
    destruct (path_eqb p q) eqn:Epq; [|trivial].
    apply path_eqb_eq in Epq as <-. now rewrite E.
  - rewrite E. split; [apply same_session_refl|]. split; [reflexivity|].
    split; [apply dirs_kept_refl|]. right. eauto.
  - rewrite E. split; [apply same_session_refl|]. split; [reflexivity|].
    split; [apply dirs_kept_refl|]. right. eauto.
Qed.

End OSFacts.

(* ================================================================== *)
(** * Facts about the wrapper *)
(* ================================================================== *)

Module WrapperFacts.
Import Py OS Wrapper Props OSFacts.
Local Open Scope string_scope.
Local Open Scope py_scope.

Section WithProcesses.
Variable run : process_oracle.

(** What [compile_bosque] can have done.  Either the compiler was not run
    and an exception came out, or it ran once, on the source just written;
    then no file is left at the source path, and the result is: the error of
    [os.remove] when the compiler took the source file away, the compilation
    error when it returned non-zero, and otherwise the output directory or
    the error that it is missing. *)
Lemma compile_bosque_cases self code work_dir w r w' :
  compile_bosque run self code work_dir w = (r, w') ->
  let src := os_path_join work_dir "source.bsq" in
  let out := os_path_join work_dir "jsout" in
  w_cwd w' = w_cwd w /\ w_iopub w' = w_iopub w
  /\ ((w_procs w' = w_procs w /\ exists e, r = Raise e)
      \/ exists pc,
           w_procs w' = (w_procs w ++ [pc])%list
           /\ p_args pc = [bosque_command self; path_str src]
           /\ p_cwd pc = work_dir
           /\ lookup (p_fs_before pc) src = Some (File code)
           /\ run (p_args pc) work_dir (p_fs_before pc)
              = (Ok (p_completed pc), p_fs_after pc)
           /\ isfile (w_fs w') src = false
           /\ ((isfile (p_fs_after pc) src = false
                /\ w_fs w' = p_fs_after pc /\ exists e, r = Raise e)
               \/ (isfile (p_fs_after pc) src = true
                   /\ w_fs w' = unlink (p_fs_after pc) src
                   /\ ((returncode (p_completed pc) <> 0%Z
                        /\ r = Raise (error BosqueExecutionError
                                 ("Compilation failed: "
                                  ++ str_or (strip (stderr (p_completed pc)))
                                       "Unknown compilation error.")))
                       \/ (returncode (p_completed pc) = 0%Z
                           /\ ((isdir (w_fs w') out = true /\ r = Ok out)
                               \/ (isdir (w_fs w') out = false
                                   /\ exists e, r = Raise e))))))).
Proof.
  intros H src out. unfold compile_bosque in H. fold src out in H.
  unfold bind at 1 in H.
  destruct (open_write src code w) as [[[]|e] w1] eqn:E1;
    apply open_write_spec in E1 as [(Hc1 & Hi1 & Hp1) Hw1].
  2:{ injection H as <- <-. repeat split; try assumption. left. eauto. }
  destruct Hw1 as [(_ & Hfs1 & Hnd) | [(e & He) _]]; [|discriminate].
  unfold bind at 1 in H. unfold os_makedirs_exist_ok in H.
  destruct (makedirs_rev (rev out) w1) as [[[]|e] w2] eqn:E2;
    apply makedirs_rev_spec in E2 as [(Hc2 & Hi2 & Hp2) Hg2].
  2:{ injection H as <- <-. repeat split; try congruence. left.
      split; [congruence | eauto]. }
  assert (Hsrc : lookup (w_fs w2) src = Some (File code)).
  { apply Hg2. now rewrite Hfs1, lookup_store, path_eqb_refl. }
  unfold bind at 1 in H. unfold subprocess_run at 1 in H.
  destruct (run [bosque_command self; path_str src] work_dir (w_fs w2))
    as [[cp|e] f3] eqn:E3.
  2:{ injection H as <- <-. cbn. repeat split; try congruence. left.
      split; [congruence | eauto]. }
  set (w3 := {| w_fs := f3; w_cwd := w_cwd w2; w_iopub := w_iopub w2;
                w_procs := _ |}) in H.
  unfold bind at 1 in H.
  destruct (os_remove src w3) as [[[]|e] w4] eqn:E4;
    apply os_remove_spec in E4 as ((Hc4 & Hi4 & Hp4) & Hgone & _ & Hrm).
  - (* the source file was there and is removed *)
    destruct Hrm as [(_ & Hwas & Hfs4) | [(e & He) _]]; [|discriminate].
    cbn [w3 w_fs] in Hwas, Hfs4.
    assert (Hout : w_cwd w' = w_cwd w /\ w_iopub w' = w_iopub w
                   /\ w_procs w' = w_procs w4 /\ w_fs w' = w_fs w4
                   /\ (returncode cp <> 0%Z ->
                       r = Raise (error BosqueExecutionError
                              ("Compilation failed: "
                               ++ str_or (strip (stderr cp))
                                    "Unknown compilation error.")))
                   /\ (returncode cp = 0%Z ->
                       (isdir (w_fs w4) out = true /\ r = Ok out)
                       \/ (isdir (w_fs w4) out = false /\ exists e, r = Raise e))).
    { destruct (returncode cp =? 0)%Z eqn:Erc; cbn [negb] in H.
      - apply Z.eqb_eq in Erc. unfold bind, os_path_isdir in H.
        destruct (isdir (w_fs w4) out) eqn:Ed; cbn [negb] in H;
          injection H as <- <-; cbn [w3 w_cwd w_iopub] in *;
          repeat split; try congruence; intros _; [left | right]; eauto.
      - apply Z.eqb_neq in Erc. injection H as <- <-.
        cbn [w3 w_cwd w_iopub] in *.
        repeat split; try congruence; intros K; contradiction. }
    destruct Hout as (Hc & Hi & Hp & Hf & Hbad & Hgood).
    split; [assumption|]. split; [assumption|]. right.
    eexists {| p_args := _; p_cwd := _; p_fs_before := _; p_fs_after := _;
               p_completed := _ |}.
    cbn [p_args p_cwd p_fs_before p_fs_after p_completed].
    split; [rewrite Hp, Hp4; cbn [w3 w_procs]; rewrite Hp2, Hp1; reflexivity|].
    split; [reflexivity|]. split; [reflexivity|]. split; [exact Hsrc|].
    split; [exact E3|]. split; [now rewrite Hf|].
    right. split; [assumption|]. split; [congruence|].
    destruct (Z.eq_dec (returncode cp) 0) as [Hz | Hnz].
    + right. split; [assumption|]. rewrite Hf. auto.
    + left. auto.
  - (* the compiler took the source file away *)
    destruct Hrm as [(? & _) | (_ & Hwas & ->)]; [discriminate|].
    injection H as <- <-. cbn [w3 w_cwd w_iopub w_fs w_procs] in *.
    split; [congruence|]. split; [congruence|]. right.
    eexists {| p_args := _; p_cwd := _; p_fs_before := _; p_fs_after := _;
               p_completed := _ |}.
    cbn [p_args p_cwd p_fs_before p_fs_after p_completed].
    split; [rewrite Hp2, Hp1; reflexivity|].
    split; [reflexivity|]. split; [reflexivity|]. split; [exact Hsrc|].
    split; [exact E3|]. split; [assumption|].
    left. split; [assumption|]. split; [reflexivity|]. eauto.
Qed.

Lemma find_main_js_pure self output_dir w r w' :
  find_main_js self output_dir w = (r, w') -> w' = w.
Proof.
  unfold find_main_js, bind, os_path_isfile, glob, ret, raise.
  destruct (negb _).
  - destruct (_ ++ _)%list; now intros [= _ <-].
  - now intros [= _ <-].
Qed.

(** What [execute_js] can have done: [subprocess.run] raised and nothing
    ran, or the runtime ran once and its return code decides. *)
Lemma execute_js_cases self js work_dir w r w' :
  execute_js run self js work_dir w = (r, w') ->
  w_cwd w' = w_cwd w /\ w_iopub w' = w_iopub w
  /\ ((w_procs w' = w_procs w /\ exists e, r = Raise e)
      \/ exists pn,
           w_procs w' = (w_procs w ++ [pn])%list
           /\ p_args pn = [node_command self; path_str js]
           /\ w_fs w' = p_fs_after pn
           /\ run (p_args pn) work_dir (p_fs_before pn)
              = (Ok (p_completed pn), p_fs_after pn)
           /\ (returncode (p_completed pn) <> 0%Z ->
               r = Raise (error BosqueExecutionError
                      ("Execution failed: "
                       ++ str_or (strip (stderr (p_completed pn)))
                            "Unknown execution error.")))
           /\ (returncode (p_completed pn) = 0%Z ->
               r = Ok (stdout (p_completed pn)))).
Proof.
  unfold execute_js, bind, subprocess_run.
  destruct (run [node_command self; path_str js] work_dir (w_fs w))
    as [[cp|e] f'] eqn:E.
  - intros H.
    assert (Hw : w' = {| w_fs := f'; w_cwd := w_cwd w; w_iopub := w_iopub w;
                         w_procs := (w_procs w ++
                           [{| p_args := [node_command self; path_str js];
                               p_cwd := work_dir; p_fs_before := w_fs w;
                               p_fs_after := f'; p_completed := cp |}])%list |}).
    { destruct (negb _); now injection H as _ <-. }
    subst w'. cbn. split; [reflexivity|]. split; [reflexivity|]. right.
    eexists. split; [reflexivity|]. cbn.
    split; [reflexivity|]. split; [reflexivity|]. split; [exact E|].
    destruct (returncode cp =? 0)%Z eqn:Erc; cbn [negb] in H;
      injection H as <-.
    + apply Z.eqb_eq in Erc. split; [contradiction | reflexivity].
    + apply Z.eqb_neq in Erc. split; [reflexivity | contradiction].
  - intros [= <- <-]. cbn. repeat split. left. eauto.
Qed.

Lemma app_eq_self {A} (l l' : list A) : l = (l ++ l')%list -> l' = [].
Proof.
  intros H. rewrite <- (app_nil_r l) in H at 1. now apply app_inv_head in H.
Qed.

(** C3.  [compile_bosque] runs the compiler at most once.  When it has run,
    whatever it returned, no file is left at the source path afterwards, and
    what the compiler found at that path was the code of this very call: a
    later call in the same directory does not meet the source of an earlier
    one. *)
Theorem source_file_removed self code work_dir w r w' :
  compile_bosque run self code work_dir w = (r, w') ->
  let src := os_path_join work_dir "source.bsq" in
  (w_procs w' = w_procs w \/ exists pc, w_procs w' = (w_procs w ++ [pc])%list)
  /\ (forall pc, w_procs w' = (w_procs w ++ [pc])%list ->
        lookup (p_fs_before pc) src = Some (File code)
        /\ isfile (w_fs w') src = false)
  /\ (forall code2 r2 w2 pc2,
        compile_bosque run self code2 work_dir w' = (r2, w2) ->
        w_procs w2 = (w_procs w' ++ [pc2])%list ->
        lookup (p_fs_before pc2) src = Some (File code2)).
Proof.
  intros H src.
  apply compile_bosque_cases in H as (_ & _ & H). fold src in H.
  split; [|split].
  - destruct H as [[H _] | (pc & H & _)]; [now left | right; eauto].
  - intros pc Hpc. destruct H as [[H _] | (pc' & H & _ & _ & Hs & _ & Hg & _)].
    + rewrite H in Hpc. apply app_eq_self in Hpc. discriminate.
    + rewrite H in Hpc. apply app_inv_head in Hpc. injection Hpc as <-.
      now split.
  - intros code2 r2 w2 pc2 H2 Hpc.
    apply compile_bosque_cases in H2 as (_ & _ & H2). fold src in H2.
    destruct H2 as [[H2 _] | (pc' & H2 & _ & _ & Hs & _)].
    + rewrite H2 in Hpc. apply app_eq_self in Hpc. discriminate.
    + rewrite H2 in Hpc. apply app_inv_head in Hpc. now injection Hpc as <-.
Qed.


(** C1, as the code has it.  Whatever the two programs do: when the compiler
    ran, returned non-zero and left the source file in place, the result is
    a [BosqueExecutionError] whose message is [Compilation failed: ] and the
    stripped standard error of the compiler, or the fixed message when that
    is empty; when the runtime ran and returned non-zero, it is a
    [BosqueExecutionError] whose message is [Execution failed: ] and the
    stripped standard error of the runtime, or the fixed message; when the
    runtime returned zero the result is its standard output.  The two
    exceptions have one class and are told apart by their messages. *)
Theorem compile_and_execute_outcomes self code work_dir w r w' :
  compile_and_execute run self code work_dir w = (r, w') ->
  let src := os_path_join work_dir "source.bsq" in
  (forall pc rest,
      w_procs w' = (w_procs w ++ pc :: rest)%list ->
      returncode (p_completed pc) <> 0%Z ->
      isfile (p_fs_after pc) src = true ->
      p_args pc = [bosque_command self; path_str src]
      /\ r = Raise (error BosqueExecutionError
                 ("Compilation failed: "
                  ++ str_or (strip (stderr (p_completed pc)))
                       "Unknown compilation error.")))
  /\ (forall pc pn,
        w_procs w' = (w_procs w ++ [pc; pn])%list ->
        returncode (p_completed pn) <> 0%Z ->
        hd_error (p_args pn) = Some (node_command self)
        /\ r = Raise (error BosqueExecutionError
                   ("Execution failed: "
                    ++ str_or (strip (stderr (p_completed pn)))
                         "Unknown execution error.")))
  /\ (forall pc pn,
        w_procs w' = (w_procs w ++ [pc; pn])%list ->
        returncode (p_completed pn) = 0%Z ->
        r = Ok (stdout (p_completed pn)))
  /\ (forall a b,
        error BosqueExecutionError ("Compilation failed: " ++ a)
        <> error BosqueExecutionError ("Execution failed: " ++ b)).
Proof.
  intros H src. unfold compile_and_execute in H. unfold bind at 1 in H.
  destruct (compile_bosque run self code work_dir w) as [r1 w1] eqn:E1.
  apply compile_bosque_cases in E1 as (_ & _ & E1). fold src in E1.
  split; [|split; [|split]]; [| | |intros a b K; cbn in K; discriminate K].
  - (* the compiler returned non-zero *)
    intros pc rest Hpc Hrc Hleft.
    destruct E1 as [[Hp (e & ->)] | (pc0 & Hp & Ha & _ & _ & _ & _ & Hres)].
    + injection H as <- <-. rewrite Hp in Hpc.
      apply app_eq_self in Hpc. discriminate.
    + destruct Hres as [(Hgone & _ & e & ->)
                       | (_ & _ & [[_ ->] | (Hz & [[_ ->] | (_ & e & ->)])])].
      * injection H as <- <-. rewrite Hp in Hpc.
        apply app_inv_head in Hpc. injection Hpc as <- <-. congruence.
      * injection H as <- <-. rewrite Hp in Hpc.
        apply app_inv_head in Hpc. injection Hpc as <- <-. now split.
      * exfalso. apply Hrc.
        unfold bind at 1 in H.
        destruct (find_main_js self _ w1) as [[js|e] w2] eqn:E2;
          apply find_main_js_pure in E2 as ->.
        -- unfold bind at 1 in H.
           destruct (execute_js run self js work_dir w1) as [r3 w3] eqn:E3.
           apply execute_js_cases in E3
             as (_ & _ & [[Hp3 _] | (pn & Hp3 & _)]).
           ++ assert (w' = w3) as -> by (destruct r3; now injection H).
              rewrite Hp3, Hp in Hpc. apply app_inv_head in Hpc.
              now injection Hpc as <- <-.
           ++ assert (w' = w3) as -> by (destruct r3; now injection H).
              rewrite Hp3, Hp, <- app_assoc in Hpc. apply app_inv_head in Hpc.
              now injection Hpc as <- <-.
        -- injection H as <- <-. rewrite Hp in Hpc.
           apply app_inv_head in Hpc. now injection Hpc as <- <-.
      * injection H as <- <-. rewrite Hp in Hpc.
        apply app_inv_head in Hpc. injection Hpc as <- <-. contradiction.
  - (* the runtime returned non-zero *)
    intros pc pn Hpc Hrc.
    destruct E1 as [[Hp (e & ->)] | (pc0 & Hp & _ & _ & _ & _ & _ & Hres)].
    + injection H as <- <-. rewrite Hp in Hpc.
      apply app_eq_self in Hpc. discriminate.
    + assert (Hone : forall w0, w_procs w0 = w_procs w1 -> w' = w0 -> False).
      { intros w0 Hw0 ->. rewrite Hw0, Hp in Hpc.
        apply app_inv_head in Hpc. discriminate. }
      destruct Hres as [(_ & _ & e & ->)
                       | (_ & _ & [[_ ->] | (_ & [[_ ->] | (_ & e & ->)])])];
        try (injection H as <- <-; now destruct (Hone w1 eq_refl eq_refl)).
      unfold bind at 1 in H.
      destruct (find_main_js self _ w1) as [[js|e] w2] eqn:E2;
        apply find_main_js_pure in E2 as ->;
        [|injection H as <- <-; now destruct (Hone w1 eq_refl eq_refl)].
      unfold bind at 1 in H.
      destruct (execute_js run self js work_dir w1) as [r3 w3] eqn:E3.
      apply execute_js_cases in E3
        as (_ & _ & [[Hp3 _] | (pn0 & Hp3 & Ha3 & _ & _ & Hbad & _)]).
      * assert (w' = w3) as Hw by (destruct r3; now injection H).
        now destruct (Hone w3 Hp3 Hw).
      * assert (w' = w3) as -> by (destruct r3; now injection H).
        rewrite Hp3, Hp, <- app_assoc in Hpc. apply app_inv_head in Hpc.
        injection Hpc as <- <-. rewrite Ha3. split; [reflexivity|].
        rewrite (Hbad Hrc) in H. now injection H as <-.
  - (* the runtime returned zero *)
    intros pc pn Hpc Hrc.
    destruct E1 as [[Hp (e & ->)] | (pc0 & Hp & _ & _ & _ & _ & _ & Hres)].
    + injection H as <- <-. rewrite Hp in Hpc.
      apply app_eq_self in Hpc. discriminate.
    + assert (Hone : forall w0, w_procs w0 = w_procs w1 -> w' = w0 -> False).
      { intros w0 Hw0 ->. rewrite Hw0, Hp in Hpc.
        apply app_inv_head in Hpc. discriminate. }
      destruct Hres as [(_ & _ & e & ->)
                       | (_ & _ & [[_ ->] | (_ & [[_ ->] | (_ & e & ->)])])];
        try (injection H as <- <-; now destruct (Hone w1 eq_refl eq_refl)).
      unfold bind at 1 in H.
      destruct (find_main_js self _ w1) as [[js|e] w2] eqn:E2;
        apply find_main_js_pure in E2 as ->;
        [|injection H as <- <-; now destruct (Hone w1 eq_refl eq_refl)].
      unfold bind at 1 in H.
      destruct (execute_js run self js work_dir w1) as [r3 w3] eqn:E3.
      apply execute_js_cases in E3
        as (_ & _ & [[Hp3 _] | (pn0 & Hp3 & _ & _ & _ & _ & Hgood)]).
      * assert (w' = w3) as Hw by (destruct r3; now injection H).
        now destruct (Hone w3 Hp3 Hw).
      * assert (w' = w3) as -> by (destruct r3; now injection H).
        rewrite Hp3, Hp, <- app_assoc in Hpc. apply app_inv_head in Hpc.
        injection Hpc as <- <-.
        rewrite (Hgood Hrc) in H. now injection H as <-.
Qed.

End WithProcesses.

End WrapperFacts.

(* ================================================================== *)
(** * Facts about the kernel *)
(* ================================================================== *)

Module KernelFacts.
Import Py OS Wrapper Kernel Props OSFacts WrapperFacts.
Local Open Scope string_scope.
Local Open Scope py_scope.

Section Preservation.
Context {I : world -> world -> Prop}.
Hypothesis I_refl : forall w, I w w.
Hypothesis I_trans : forall w1 w2 w3, I w1 w2 -> I w2 w3 -> I w1 w3.

Lemma preserves_ret {A} (a : A) : preserves I (ret a).
Proof. intros w r w' [= _ <-]. apply I_refl. Qed.

Lemma preserves_raise {A} (e : exn) : preserves I (@raise A e).
Proof. intros w r w' [= _ <-]. apply I_refl. Qed.

Lemma preserves_bind {A B} (m : M A) (k : A -> M B) :
  preserves I m -> (forall a, preserves I (k a)) -> preserves I (bind m k).
Proof.
  intros Hm Hk w r w'. unfold bind.
  destruct (m w) as [[a|e] w1] eqn:E; apply Hm in E.
  - intros H. apply Hk in H. eauto.
  - now intros [= _ <-].
Qed.

Lemma preserves_try {A} (m : M A) (h : exn -> M A) :
  preserves I m -> (forall e, preserves I (h e)) -> preserves I (try_except m h).
Proof.
  intros Hm Hh w r w'. unfold try_except.
  destruct (m w) as [[a|e] w1] eqn:E; apply Hm in E.
  - now intros [= _ <-].
  - intros H. apply Hh in H. eauto.
Qed.

Lemma preserves_when (b : bool) (m : M unit) :
  preserves I m -> preserves I (when b m).
Proof. destruct b; [trivial | intros _; apply preserves_ret]. Qed.

End Preservation.

Lemma dir_stays_refl d0 w : dir_stays d0 w w.
Proof. now intros H. Qed.

Lemma dir_stays_trans d0 w1 w2 w3 :
  dir_stays d0 w1 w2 -> dir_stays d0 w2 w3 -> dir_stays d0 w1 w3.
Proof. unfold dir_stays. auto. Qed.

Lemma stays_ret {A} d0 (a : A) : preserves (dir_stays d0) (ret a).
Proof. apply preserves_ret, dir_stays_refl. Qed.

Lemma stays_raise {A} d0 (e : exn) : preserves (dir_stays d0) (@raise A e).
Proof. apply preserves_raise, dir_stays_refl. Qed.

Lemma stays_bind {A B} d0 (m : M A) (k : A -> M B) :
  preserves (dir_stays d0) m -> (forall a, preserves (dir_stays d0) (k a)) ->
  preserves (dir_stays d0) (bind m k).
Proof. apply preserves_bind, dir_stays_trans. Qed.

Lemma stays_try {A} d0 (m : M A) (h : exn -> M A) :
  preserves (dir_stays d0) m -> (forall e, preserves (dir_stays d0) (h e)) ->
  preserves (dir_stays d0) (try_except m h).
Proof. apply preserves_try, dir_stays_trans. Qed.

Lemma stays_when d0 (b : bool) (m : M unit) :
  preserves (dir_stays d0) m -> preserves (dir_stays d0) (when b m).
Proof. apply preserves_when, dir_stays_refl. Qed.

Lemma same_fs_stays {A} d0 (m : M A) :
  (forall w r w', m w = (r, w') -> w_fs w' = w_fs w) ->
  preserves (dir_stays d0) m.
Proof. intros H w r w' E Hd. now rewrite (H _ _ _ E). Qed.

Lemma open_write_stays d0 p content : preserves (dir_stays d0) (open_write p content).
Proof.
  intros w r w' E Hd.
  apply open_write_spec in E as [_ [(_ & -> & Hp) | [_ ->]]]; [|assumption].
  now apply store_file_dirs_kept.
Qed.

Lemma makedirs_stays d0 p : preserves (dir_stays d0) (os_makedirs_exist_ok p).
Proof.
  intros w r w' E Hd. apply makedirs_rev_spec in E as [_ Hg].
  now apply (grows_dirs_kept _ _ Hg).
Qed.

Lemma os_remove_stays d0 p : preserves (dir_stays d0) (os_remove p).
Proof.
  intros w r w' E Hd. apply os_remove_spec in E as (_ & _ & Hk & _). now apply Hk.
Qed.

Lemma os_chdir_stays d0 p : preserves (dir_stays d0) (os_chdir p).
Proof.
  apply same_fs_stays. intros w r w'. unfold os_chdir.
  destruct (lookup (w_fs w) p) as [[c|]|]; now intros [= _ <-].
Qed.

Lemma send_response_stays d0 ty content :
  preserves (dir_stays d0) (send_response ty content).
Proof. apply same_fs_stays. now intros w r w' [= _ <-]. Qed.

Section WithProcesses.
Variable run : process_oracle.
Variable d0 : path.
Hypothesis run_keeps : keeps run d0.

Lemma subprocess_run_stays args cwd :
  preserves (dir_stays d0) (subprocess_run run args cwd).
Proof.
  intros w r w'. unfold subprocess_run.
  pose proof (run_keeps args cwd (w_fs w)) as K.
  destruct (run args cwd (w_fs w)) as [[cp|e] f']; intros [= _ <-] Hd;
    now apply K.
Qed.

Ltac stays :=
  repeat first
    [ apply stays_bind; [ | intros ]
    | apply stays_try; [ | intros ]
    | apply stays_when
    | apply stays_ret
    | apply stays_raise
    | apply open_write_stays
    | apply makedirs_stays
    | apply os_remove_stays
    | apply os_chdir_stays
    | apply send_response_stays
    | apply subprocess_run_stays
    | apply same_fs_stays; now intros ? ? ? [= _ <-]
    | match goal with |- preserves _ (if ?b then _ else _) => destruct b end
    | match goal with |- preserves _ (match ?x with _ => _ end) => destruct x end ].

Lemma compile_and_execute_stays self code work_dir :
  preserves (dir_stays d0) (compile_and_execute run self code work_dir).
Proof.
  unfold compile_and_execute, compile_bosque, find_main_js, execute_js.
  stays.
Qed.

Lemma _compile_and_execute_stays self code :
  preserves (dir_stays d0) (_compile_and_execute run self code).
Proof.
  unfold _compile_and_execute. apply stays_try.
  - destruct (temp_dir self); [apply compile_and_execute_stays | stays].
  - intros e. stays.
Qed.

Lemma do_execute_body_stays self code silent d :
  preserves (dir_stays d0) (do_execute_body run self code silent d).
Proof.
  unfold do_execute_body.
  apply stays_bind; [stays|]. intros _.
  apply stays_bind; [apply _compile_and_execute_stays|].
  intros out. stays.
Qed.

End WithProcesses.

Section Requests.
Variable run : process_oracle.

Lemma when_send_world silent ty content w :
  exists w0,
    when (negb silent) (send_response ty content) w = (Ok tt, w0)
    /\ w_cwd w0 = w_cwd w /\ w_fs w0 = w_fs w.
Proof. destruct silent; cbn; eexists; repeat split. Qed.

(** A reply of [do_execute_body] comes after [os.chdir(original_cwd)]. *)
Lemma do_execute_body_ok_cwd self code silent d w r w' :
  do_execute_body run self code silent d w = (Ok r, w') -> w_cwd w' = d.
Proof.
  unfold do_execute_body. unfold bind at 1.
  destruct (try_except _ _ w) as [[[]|e] wa]; [|discriminate].
  unfold bind at 1.
  destruct (_compile_and_execute run self code wa) as [[out|e] wb];
    [|discriminate].
  unfold bind at 1.
  destruct (when_send_world silent "stream"
              (VDict [("name", VStr "stdout"); ("text", VStr out)]) wb)
    as (wc & -> & _ & _).
  unfold bind at 1. unfold os_chdir at 1.
  destruct (lookup (w_fs wc) d) as [[c|]|]; try discriminate.
  unfold bind at 1.
  destruct (when_send_world silent "status"
              (VDict [("execution_state", VStr "idle")]) (with_cwd wc d))
    as (we & -> & Hc & _).
  now intros [= _ <-].
Qed.

(** So does a reply of the handlers; without [original_cwd] there is none. *)
Lemma do_execute_handlers_ok_cwd self silent d e w r w' :
  do_execute_handlers self silent (Some d) e w = (Ok r, w') -> w_cwd w' = d.
Proof.
  unfold do_execute_handlers, send_error.
  destruct (is_BosqueExecutionError (exn_cls e)); unfold bind at 1;
    match goal with
    | |- context [when (negb silent) (send_response ?ty ?c) w] =>
        destruct (when_send_world silent ty c w) as (w0 & -> & _ & _)
    end;
    unfold bind, restore_cwd, os_chdir, ret;
    destruct (lookup (w_fs w0) d) as [[c|]|]; try discriminate;
    now intros [= _ <-].
Qed.

Lemma do_execute_handlers_unbound self silent e w r w' :
  do_execute_handlers self silent None e w = (r, w') -> exists e', r = Raise e'.
Proof.
  unfold do_execute_handlers, send_error.
  destruct (is_BosqueExecutionError (exn_cls e)); unfold bind at 1;
    match goal with
    | |- context [when (negb silent) (send_response ?ty ?c) w] =>
        destruct (when_send_world silent ty c w) as (w0 & -> & _ & _)
    end;
    unfold bind, restore_cwd, raise; intros [= <- _]; eauto.
Qed.

(** With the directory to go back to in place, the handlers reply. *)
Lemma do_execute_handlers_reply self silent d e w :
  isdir (w_fs w) d = true ->
  exists w',
    do_execute_handlers self silent (Some d) e w
    = (Ok (error_reply self
             (if is_BosqueExecutionError (exn_cls e)
              then "BosqueExecutionError" else class_name (exn_cls e))
             (exn_str e)), w')
    /\ w_cwd w' = d /\ w_fs w' = w_fs w.
Proof.
  intros Hd. unfold do_execute_handlers, send_error, error_reply.
  destruct (is_BosqueExecutionError (exn_cls e)); unfold bind at 1;
    match goal with
    | |- context [when (negb silent) (send_response ?ty ?c) w] =>
        destruct (when_send_world silent ty c w) as (w0 & -> & _ & Hf)
    end;
    unfold bind, restore_cwd, os_chdir, ret; unfold isdir in Hd;
    rewrite <- Hf in Hd;
    destruct (lookup (w_fs w0) d) as [[c|]|]; try discriminate;
    eexists; (split; [reflexivity|]); cbn; auto.
Qed.

Lemma do_execute_ok_cwd self code silent w r w' :
  do_execute run self code silent w = (Ok r, w') -> w_cwd w' = w_cwd w.
Proof.
  unfold do_execute. unfold bind at 1.
  destruct (when_send_world silent "status"
              (VDict [("execution_state", VStr "busy")]) w)
    as (w0 & -> & Hc & _).
  unfold os_getcwd. destruct (isdir (w_fs w0) (w_cwd w0)).
  - unfold try_except.
    destruct (do_execute_body run self code silent (w_cwd w0) w0)
      as [[reply|e] w2] eqn:Eb.
    + intros [= <- <-]. apply do_execute_body_ok_cwd in Eb. congruence.
    + intros H. apply do_execute_handlers_ok_cwd in H. congruence.
  - intros H. apply do_execute_handlers_unbound in H as (e' & H). discriminate.
Qed.

Lemma do_execute_returns self code silent w :
  isdir (w_fs w) (w_cwd w) = true ->
  keeps run (w_cwd w) ->
  exists r w',
    do_execute run self code silent w = (Ok r, w')
    /\ w_cwd w' = w_cwd w
    /\ isdir (w_fs w') (w_cwd w) = true.
Proof.
  intros Hd Hk. unfold do_execute. unfold bind at 1.
  destruct (when_send_world silent "status"
              (VDict [("execution_state", VStr "busy")]) w)
    as (w0 & -> & Hc & Hf).
  unfold os_getcwd. rewrite Hc, Hf, Hd. unfold try_except.
  destruct (do_execute_body run self code silent (w_cwd w) w0)
    as [[reply|e] w2] eqn:Eb.
  - exists reply, w2. split; [reflexivity|].
    split; [now apply do_execute_body_ok_cwd in Eb|].
    apply (do_execute_body_stays run (w_cwd w) Hk) in Eb. apply Eb. congruence.
  - apply (do_execute_body_stays run (w_cwd w) Hk) in Eb.
    assert (Hd2 : isdir (w_fs w2) (w_cwd w) = true) by (apply Eb; congruence).
    destruct (do_execute_handlers_reply self silent (w_cwd w) e w2 Hd2)
      as (w' & -> & Hc' & Hf').
    eexists _, w'. split; [reflexivity|]. split; [assumption | congruence].
Qed.

(** C4.  Whenever [do_execute] returns, the working directory is the one of
    before the call; and it does return, with that directory restored, for
    every request made in a working directory that exists and that the
    child processes do not take away.  This covers the reply after a
    success, after a [BosqueExecutionError] and after any other exception. *)
Theorem do_execute_restores_cwd self code silent w :
  (forall r w', do_execute run self code silent w = (Ok r, w') ->
                w_cwd w' = w_cwd w)
  /\ (isdir (w_fs w) (w_cwd w) = true ->
      keeps run (w_cwd w) ->
      exists r w', do_execute run self code silent w = (Ok r, w')
                   /\ w_cwd w' = w_cwd w).
Proof.
  split.
  - intros r w'. apply do_execute_ok_cwd.
  - intros Hd Hk.
    destruct (do_execute_returns self code silent w Hd Hk) as (r & w' & H & Hc & _).
    eauto.
Qed.


End Requests.

Section Start.
Variable mkdtemp : string -> M path.
Variable which : string -> option string.

(** C6, on the code.  When [bosque] or [node] is not found, [__init__] does
    raise, but what it raises is the [NameError] of the unbound name [es] in
    its last handler; the [RuntimeError] that names the missing executable
    is only the context of that exception. *)
Theorem init_raises_NameError w tmp w1 :
  mkdtemp "bosque_kernel_" w = (Ok tmp, w1) ->
  (falsy (which "bosque") = true ->
   init mkdtemp which w
   = (Raise (Exn NameError "name 'es' is not defined"
        (Some (error RuntimeError "'bosque' executable not found in PATH."))),
      w1))
  /\ (falsy (which "bosque") = false ->
      falsy (which "node") = true ->
      init mkdtemp which w
      = (Raise (Exn NameError "name 'es' is not defined"
           (Some (error RuntimeError "'node' executable not found in PATH."))),
         w1)).
Proof.
  intros Hm. unfold init, try_except, bind. rewrite Hm.
  split.
  - intros ->. reflexivity.
  - intros -> ->. reflexivity.
Qed.

End Start.

End KernelFacts.

(* ================================================================== *)
(** * More about the scanner *)
(* ================================================================== *)

Module LexerMore.
Import Py Regex BosqueLexer Props PyFacts RegexFacts LexerFacts.

(** ** What a match can begin with *)






(** ** Runs of a class *)







(** ** One iteration *)



(** ** The state stack *)



(** ** Newlines *)




(** ** Line comments *)



(** ** Closed literals *)






(** ** The end of a block comment *)




(** ** Characters that stand for themselves *)





(** ** Inside a word *)







(** ** Dollar and percent signs *)












(** ** Backslashes in literals *)


End LexerMore.

(* ================================================================== *)
(** * More about the wrapper *)
(* ================================================================== *)

Module WrapperMore.
Import Py OS Wrapper Props OSFacts WrapperFacts.
Local Open Scope string_scope.
Local Open Scope py_scope.

Lemma dirname_join d name : dirname (os_path_join d name) = d.
Proof. unfold dirname, os_path_join. apply removelast_last. Qed.

Lemma basename_join d name : basename (os_path_join d name) = name.
Proof. unfold basename, os_path_join. apply last_last. Qed.

Lemma join_inj d name name' :
  os_path_join d name = os_path_join d name' -> name = name'.
Proof.
  unfold os_path_join. intros H. apply app_inv_head in H. now injection H.
Qed.

Section WithProcesses.
Variable run : process_oracle.

(** [compile_bosque] returns the output directory only after the compiler
    has run once and returned 0; the directory is then [jsout] under the
    working directory, it exists, and the source file is gone. *)
Theorem compile_bosque_success self code work_dir w out w' :
  compile_bosque run self code work_dir w = (Ok out, w') ->
  out = os_path_join work_dir "jsout"
  /\ isdir (w_fs w') out = true
  /\ isfile (w_fs w') (os_path_join work_dir "source.bsq") = false
  /\ exists pc,
       w_procs w' = (w_procs w ++ [pc])%list
       /\ returncode (p_completed pc) = 0%Z
       /\ lookup (p_fs_before pc) (os_path_join work_dir "source.bsq")
          = Some (File code).
Proof.
  intros H. apply compile_bosque_cases in H as (_ & _ & H).
  destruct H as [[_ (e & He)] | (pc & Hp & _ & _ & Hs & _ & Hg & Hres)];
    [discriminate|].
  destruct Hres as [(_ & _ & e & He)
                   | (_ & _ & [[_ He] | (Hz & [[Hd He] | (_ & e & He)])])];
    try discriminate.
  injection He as ->. repeat split; try assumption. now exists pc.
Qed.

(** When [compile_bosque] ends without a compiler having run to its end,
    because the output directory could not be made or the compiler could not
    be started, the source file it wrote stays where it is. *)
Theorem compile_bosque_leaves_source self code work_dir w r w' :
  fails_cleanly run ->
  isdir (w_fs w) work_dir = true ->
  isdir (w_fs w) (os_path_join work_dir "source.bsq") = false ->
  compile_bosque run self code work_dir w = (r, w') ->
  w_procs w' = w_procs w ->
  (exists e, r = Raise e)
  /\ lookup (w_fs w') (os_path_join work_dir "source.bsq") = Some (File code).
Proof.
  intros Hclean Hwd Hsrc H Hprocs.
  set (src := os_path_join work_dir "source.bsq") in *.
  unfold compile_bosque in H. fold src in H. unfold bind at 1 in H.
  assert (Hw : open_write src code w
               = (Ok tt, with_fs w (store (w_fs w) src (File code)))).
  { unfold open_write. unfold src at 1. rewrite dirname_join.
    unfold isdir in Hwd. destruct (lookup (w_fs w) work_dir) as [[c|]|];
      try discriminate. now rewrite Hsrc. }
  rewrite Hw in H. unfold bind at 1 in H. unfold os_makedirs_exist_ok in H.
  destruct (makedirs_rev _ _) as [[[]|e] w2] eqn:E2;
    apply makedirs_rev_spec in E2 as [(Hc2 & Hi2 & Hp2) Hg2].
  2:{ injection H as <- <-. split; [eauto|]. apply Hg2. cbn [w_fs with_fs].
      now rewrite lookup_store, path_eqb_refl. }
  assert (Hs2 : lookup (w_fs w2) src = Some (File code)).
  { apply Hg2. cbn [w_fs with_fs]. now rewrite lookup_store, path_eqb_refl. }
  unfold bind at 1 in H. unfold subprocess_run at 1 in H.
  destruct (run _ work_dir (w_fs w2)) as [[cp|e] f3] eqn:E3.
  - exfalso. unfold bind at 1 in H.
    match type of H with
    | context [os_remove src ?w3] =>
        destruct (os_remove src w3) as [[[]|e] w4] eqn:E4;
        apply os_remove_spec in E4 as ((_ & _ & Hp4) & _)
    end.
    + assert (Hw' : w_procs w' = w_procs w4).
      { destruct (negb _); [now injection H as _ <-|].
        unfold bind, os_path_isdir in H.
        destruct (negb _); now injection H as _ <-. }
      rewrite Hw', Hp4 in Hprocs. cbn [w_procs] in Hprocs.
      rewrite Hp2 in Hprocs. cbn [w_procs with_fs] in Hprocs.
      symmetry in Hprocs. apply app_eq_self in Hprocs. discriminate.
    + injection H as _ <-. rewrite Hp4 in Hprocs. cbn [w_procs] in Hprocs.
      rewrite Hp2 in Hprocs. cbn [w_procs with_fs] in Hprocs.
      symmetry in Hprocs. apply app_eq_self in Hprocs. discriminate.
  - injection H as <- <-. split; [eauto|]. cbn [w_fs with_fs].
    now rewrite (Hclean _ _ _ _ _ E3).
Qed.

(** [find_main_js] only reads.  A path it returns is [Main.mjs], there as a
    file, or else an entry of the output directory whose name ends in
    [.mjs], or one whose name ends in [.js] when no entry ends in [.mjs]. *)
Theorem find_main_js_prefers_mjs self output_dir w p w' :
  find_main_js self output_dir w = (Ok p, w') ->
  let main_js := os_path_join output_dir (main_js_filename self) in
  let entries := listdir (w_fs w) output_dir in
  w' = w
  /\ ((p = main_js /\ isfile (w_fs w) main_js = true)
      \/ (isfile (w_fs w) main_js = false
          /\ isdir (w_fs w) output_dir = true
          /\ In p entries
          /\ (endswith (basename p) ".mjs" = true
              \/ (endswith (basename p) ".js" = true
                  /\ forall q, In q entries ->
                               endswith (basename q) ".mjs" = false)))).
Proof.
  intros H main_js entries.
  split; [now apply find_main_js_pure in H|].
  unfold find_main_js in H. fold main_js in H.
  unfold bind, os_path_isfile, glob, ret, raise in H.
  destruct (isfile (w_fs w) main_js) eqn:Ef; cbn [negb] in H.
  - injection H as <- _. now left.
  - right. split; [reflexivity|]. unfold glob_suffix in H. fold entries in H.
    destruct (isdir (w_fs w) output_dir); [|discriminate].
    split; [reflexivity|].
    destruct (filter (fun p => endswith (basename p) ".mjs") entries)
      as [|m ms] eqn:Em.
    + cbn [app] in H.
      destruct (filter (fun p => endswith (basename p) ".js") entries)
        as [|j js] eqn:Ej; [discriminate|].
      injection H as <- _.
      assert (Hin : In j (filter (fun p => endswith (basename p) ".js") entries))
        by (rewrite Ej; now left).
      apply filter_In in Hin as [Hin Hext]. split; [assumption|]. right.
      split; [assumption|]. intros q Hq.
      destruct (endswith (basename q) ".mjs") eqn:Eq; [|reflexivity].
      assert (K : In q (filter (fun p => endswith (basename p) ".mjs") entries))
        by (apply filter_In; now split).
      rewrite Em in K. destruct K.
    + cbn [app] in H. injection H as <- _.
      assert (Hin : In m (filter (fun p => endswith (basename p) ".mjs") entries))
        by (rewrite Em; now left).
      apply filter_In in Hin as [Hin Hext]. split; [assumption|]. now left.
Qed.

Lemma execute_js_process self js work_dir w r w' :
  execute_js run self js work_dir w = (r, w') ->
  (w_procs w' = w_procs w /\ exists e, r = Raise e)
  \/ exists pn,
       w_procs w' = (w_procs w ++ [pn])%list
       /\ p_args pn = [node_command self; path_str js]
       /\ p_cwd pn = work_dir
       /\ p_fs_before pn = w_fs w
       /\ ((returncode (p_completed pn) = 0%Z
            /\ r = Ok (stdout (p_completed pn)))
           \/ (returncode (p_completed pn) <> 0%Z /\ exists e, r = Raise e)).
Proof.
  unfold execute_js, bind, subprocess_run.
  destruct (run [node_command self; path_str js] work_dir (w_fs w))
    as [[cp|e] f'] eqn:E.
  - intros H. right.
    exists {| p_args := [node_command self; path_str js]; p_cwd := work_dir;
              p_fs_before := w_fs w; p_fs_after := f'; p_completed := cp |}.
    cbn [p_args p_cwd p_fs_before p_completed].
    destruct (returncode cp =? 0)%Z eqn:Erc; cbn [negb] in H;
      injection H as <- <-; cbn [w_procs];
      repeat (split; [reflexivity|]).
    + apply Z.eqb_eq in Erc. now left.
    + apply Z.eqb_neq in Erc. right. eauto.
  - intros [= <- <-]. left. split; [reflexivity | eauto].
Qed.

(** [compile_and_execute] runs the compiler on the source file and then,
    only if the compiler returned 0, the runtime on one module, both in the
    working directory and one after the other; it returns a text only when
    both have run and the runtime returned 0 as well, and that text is the
    standard output of the runtime. *)
Theorem compile_and_execute_processes self code work_dir w r w' :
  compile_and_execute run self code work_dir w = (r, w') ->
  let src := os_path_join work_dir "source.bsq" in
  (w_procs w' = w_procs w /\ exists e, r = Raise e)
  \/ (exists pc,
        w_procs w' = (w_procs w ++ [pc])%list
        /\ p_args pc = [bosque_command self; path_str src]
        /\ p_cwd pc = work_dir
        /\ exists e, r = Raise e)
  \/ (exists pc pn js,
        w_procs w' = (w_procs w ++ [pc; pn])%list
        /\ p_args pc = [bosque_command self; path_str src]
        /\ p_cwd pc = work_dir
        /\ returncode (p_completed pc) = 0%Z
        /\ p_args pn = [node_command self; path_str js]
        /\ p_cwd pn = work_dir
        /\ p_fs_before pn = unlink (p_fs_after pc) src
        /\ ((returncode (p_completed pn) = 0%Z
             /\ r = Ok (stdout (p_completed pn)))
            \/ (returncode (p_completed pn) <> 0%Z /\ exists e, r = Raise e))).
Proof.
  intros H src. unfold compile_and_execute in H. unfold bind at 1 in H.
  destruct (compile_bosque run self code work_dir w) as [r1 w1] eqn:E1.
  apply compile_bosque_cases in E1 as (_ & _ & E1). fold src in E1.
  destruct E1 as [[Hp (e & ->)] | (pc & Hp & Ha & Hc & _ & _ & _ & Hres)].
  - injection H as <- <-. left. split; [assumption | eauto].
  - right.
    destruct Hres as [(_ & _ & e & ->)
                     | (_ & Hfs & [[_ ->] | (Hz & [[_ ->] | (_ & e & ->)])])];
      try (injection H as <- <-; left; exists pc; repeat split; eauto).
    unfold bind at 1 in H.
    destruct (find_main_js self _ w1) as [[js|e] w2] eqn:E2;
      apply find_main_js_pure in E2 as ->;
      [|injection H as <- <-; left; exists pc; repeat split; eauto].
    unfold bind at 1 in H.
    destruct (execute_js run self js work_dir w1) as [r3 w3] eqn:E3.
    assert (Hr : r = r3 /\ w' = w3) by (destruct r3; now injection H).
    destruct Hr as [-> ->].
    apply execute_js_process in E3
      as [[Hp3 He] | (pn & Hp3 & Ha3 & Hc3 & Hb3 & Hrc)].
    + left. exists pc. rewrite Hp3. repeat split; assumption.
    + right. exists pc, pn, js. rewrite Hp3, Hp, <- app_assoc.
      repeat split; try assumption. congruence.
Qed.

End WithProcesses.

End WrapperMore.

(* ================================================================== *)
(** * More about the kernel *)
(* ================================================================== *)

Module KernelMore.
Import Py OS Wrapper Kernel Props OSFacts WrapperFacts KernelFacts WrapperMore.
Local Open Scope string_scope.
Local Open Scope py_scope.

Lemma quiet_refl w : quiet w w.
Proof. reflexivity. Qed.

Lemma quiet_trans w1 w2 w3 : quiet w1 w2 -> quiet w2 w3 -> quiet w1 w3.
Proof. unfold quiet. congruence. Qed.

Lemma quiet_ret {A} (a : A) : preserves quiet (ret a).
Proof. apply preserves_ret, quiet_refl. Qed.

Lemma quiet_raise {A} (e : exn) : preserves quiet (@raise A e).
Proof. apply preserves_raise, quiet_refl. Qed.

Lemma quiet_bind {A B} (m : M A) (k : A -> M B) :
  preserves quiet m -> (forall a, preserves quiet (k a)) ->
  preserves quiet (bind m k).
Proof. apply preserves_bind, quiet_trans. Qed.

Lemma quiet_try {A} (m : M A) (h : exn -> M A) :
  preserves quiet m -> (forall e, preserves quiet (h e)) ->
  preserves quiet (try_except m h).
Proof. apply preserves_try, quiet_trans. Qed.

Lemma quiet_session {A} (m : M A) :
  (forall w r w', m w = (r, w') -> same_session w w') -> preserves quiet m.
Proof. intros H w r w' E. now apply H in E as (_ & ? & _). Qed.

Lemma open_write_quiet p content : preserves quiet (open_write p content).
Proof. apply quiet_session. intros w r w' E. now apply open_write_spec in E. Qed.

Lemma makedirs_quiet p : preserves quiet (os_makedirs_exist_ok p).
Proof. apply quiet_session. intros w r w' E. now apply makedirs_rev_spec in E. Qed.

Lemma os_remove_quiet p : preserves quiet (os_remove p).
Proof. apply quiet_session. intros w r w' E. now apply os_remove_spec in E. Qed.

Lemma os_chdir_quiet p : preserves quiet (os_chdir p).
Proof.
  intros w r w'. unfold os_chdir.
  destruct (lookup (w_fs w) p) as [[c|]|]; now intros [= _ <-].
Qed.

Lemma subprocess_run_quiet run args cwd :
  preserves quiet (subprocess_run run args cwd).
Proof.
  intros w r w'. unfold subprocess_run.
  destruct (run args cwd (w_fs w)) as [[cp|e] f']; now intros [= _ <-].
Qed.

Ltac quiets :=
  repeat first
    [ apply quiet_bind; [ | intros ]
    | apply quiet_try; [ | intros ]
    | apply quiet_ret
    | apply quiet_raise
    | apply open_write_quiet
    | apply makedirs_quiet
    | apply os_remove_quiet
    | apply os_chdir_quiet
    | apply subprocess_run_quiet
    | (intros ? ? ? [= _ <-]; reflexivity)
    | match goal with |- preserves _ (if ?b then _ else _) => destruct b end
    | match goal with |- preserves _ (match ?x with _ => _ end) => destruct x end ].

Section Requests.
Variable run : process_oracle.

Lemma compile_and_execute_quiet self code work_dir :
  preserves quiet (compile_and_execute run self code work_dir).
Proof.
  unfold compile_and_execute, compile_bosque, find_main_js, execute_js.
  quiets.
Qed.

Lemma _compile_and_execute_quiet self code :
  preserves quiet (_compile_and_execute run self code).
Proof.
  unfold _compile_and_execute. apply quiet_try.
  - destruct (temp_dir self); [apply compile_and_execute_quiet | quiets].
  - intros e. quiets.
Qed.

(** A silent request sends no message, whatever its outcome. *)
Theorem silent_request_sends_nothing self code w r w' :
  do_execute run self code true w = (r, w') -> w_iopub w' = w_iopub w.
Proof.
  unfold do_execute, when. cbn [negb]. unfold bind at 1, ret at 1.
  assert (Hh : forall o e, preserves quiet (do_execute_handlers self true o e)).
  { intros o e. unfold do_execute_handlers, restore_cwd, when. cbn [negb].
    quiets. }
  unfold os_getcwd. destruct (isdir (w_fs w) (w_cwd w)).
  - assert (Hb : preserves quiet
                   (try_except (do_execute_body run self code true (w_cwd w))
                      (do_execute_handlers self true (Some (w_cwd w))))).
    { apply quiet_try; [|intros e; apply Hh].
      unfold do_execute_body, when. cbn [negb].
      apply quiet_bind; [quiets|]. intros _.
      apply quiet_bind; [apply _compile_and_execute_quiet|]. intros out.
      quiets. }
    intros H. now apply Hb in H.
  - intros H. now apply Hh in H.
Qed.

Lemma bind_ok {A B} (m : M A) (k : A -> M B) w a w1 :
  m w = (Ok a, w1) -> bind m k w = k a w1.
Proof. unfold bind. now intros ->. Qed.

Lemma bind_raise {A B} (m : M A) (k : A -> M B) w e w1 :
  m w = (Raise e, w1) -> bind m k w = (Raise e, w1).
Proof. unfold bind. now intros ->. Qed.

Lemma try_ok {A} (m : M A) h w a w1 :
  m w = (Ok a, w1) -> try_except m h w = (Ok a, w1).
Proof. unfold try_except. now intros ->. Qed.

Lemma try_raise {A} (m : M A) h w e w1 :
  m w = (Raise e, w1) -> try_except m h w = h e w1.
Proof. unfold try_except. now intros ->. Qed.

Lemma os_chdir_ok d w :
  isdir (w_fs w) d = true -> os_chdir d w = (Ok tt, with_cwd w d).
Proof.
  unfold os_chdir, isdir. now destruct (lookup (w_fs w) d) as [[c|]|].
Qed.

(** The messages of a request that is not silent: busy, the output and idle
    when the wrapper returns; busy and the error, and no idle, when it
    raises. *)
Theorem request_messages self code w d :
  temp_dir self = Some d ->
  isdir (w_fs w) (w_cwd w) = true ->
  isdir (w_fs w) d = true ->
  keeps run (w_cwd w) ->
  (forall out w2,
      compile_and_execute run (bosque self) code d (at_wrapper_entry false d w)
      = (Ok out, w2) ->
      exists w3,
        do_execute run self code false w = (Ok (ok_reply self), w3)
        /\ w_iopub w3
           = (w_iopub w ++ [busy_msg; stream_msg out; idle_msg])%list)
  /\ (forall e w2,
        compile_and_execute run (bosque self) code d (at_wrapper_entry false d w)
        = (Raise e, w2) ->
        exists w3,
          do_execute run self code false w
          = (Ok (error_reply self "BosqueExecutionError"
                   ("Execution failed: " ++ exn_str e)), w3)
          /\ w_iopub w3
             = (w_iopub w
                ++ [busy_msg;
                    error_msg "BosqueExecutionError"
                      ("Execution failed: " ++ exn_str e)])%list).
Proof.
  intros Ht Hd Hdt Hk.
  set (w0 := snd (when (negb false) (send_response "status" busy) w)).
  assert (Hstart : forall r2 w2,
             compile_and_execute run (bosque self) code d
               (at_wrapper_entry false d w) = (r2, w2) ->
             w_iopub w2 = (w_iopub w ++ [busy_msg])%list
             /\ isdir (w_fs w2) (w_cwd w) = true).
  { intros r2 w2 E. split.
    - apply compile_and_execute_quiet in E. rewrite E. reflexivity.
    - apply (compile_and_execute_stays run (w_cwd w) Hk) in E. now apply E. }
  assert (Hexec : do_execute run self code false w
                  = try_except (do_execute_body run self code false (w_cwd w))
                      (do_execute_handlers self false (Some (w_cwd w))) w0).
  { unfold do_execute. rewrite (bind_ok _ _ w tt w0) by reflexivity.
    unfold os_getcwd. change (w_fs w0) with (w_fs w).
    change (w_cwd w0) with (w_cwd w). now rewrite Hd. }
  assert (Henter : try_except
                     (match temp_dir self with
                      | Some d => os_chdir d
                      | None => raise (error TypeError
                          "chdir: path should be string, bytes or os.PathLike, not NoneType")
                      end)
                     (fun e => if is_OSError (exn_cls e)
                               then raise (error_in e RuntimeError
                                             "Failed to change working directory.")
                               else raise e) w0
                   = (Ok tt, at_wrapper_entry false d w)).
  { rewrite Ht. apply try_ok. now apply os_chdir_ok. }
  rewrite Hexec. split.
  - intros out w2 E. destruct (Hstart _ _ E) as (Hio & Hd2).
    eexists. split.
    + apply try_ok. unfold do_execute_body.
      rewrite (bind_ok _ _ _ _ _ Henter).
      erewrite bind_ok;
        [|unfold _compile_and_execute; rewrite Ht; apply try_ok; exact E].
      erewrite bind_ok; [|reflexivity].
      erewrite bind_ok; [|apply os_chdir_ok; exact Hd2].
      erewrite bind_ok; [|reflexivity].
      reflexivity.
    + cbn. rewrite Hio, <- !app_assoc. reflexivity.
  - intros e w2 E. destruct (Hstart _ _ E) as (Hio & Hd2).
    eexists. split.
    + erewrite try_raise.
      2:{ unfold do_execute_body. rewrite (bind_ok _ _ _ _ _ Henter).
          apply bind_raise. unfold _compile_and_execute. rewrite Ht.
          erewrite try_raise by exact E. reflexivity. }
      unfold do_execute_handlers, error_in, exn_cls.
      cbn [is_BosqueExecutionError].
      erewrite bind_ok; [|reflexivity].
      erewrite bind_ok; [|apply os_chdir_ok; exact Hd2].
      reflexivity.
    + cbn. rewrite Hio, <- !app_assoc. reflexivity.
Qed.

Lemma when_send_frame silent ty content w :
  exists w0,
    when (negb silent) (send_response ty content) w = (Ok tt, w0)
    /\ w_cwd w0 = w_cwd w /\ w_fs w0 = w_fs w /\ w_procs w0 = w_procs w.
Proof. destruct silent; cbn; eexists; repeat split. Qed.

Lemma handlers_reply_frame self silent d0 e w :
  isdir (w_fs w) d0 = true ->
  exists w',
    do_execute_handlers self silent (Some d0) e w
    = (Ok (error_reply self
             (if is_BosqueExecutionError (exn_cls e)
              then "BosqueExecutionError" else class_name (exn_cls e))
             (exn_str e)), w')
    /\ w_cwd w' = d0 /\ w_fs w' = w_fs w /\ w_procs w' = w_procs w.
Proof.
  intros Hd. unfold do_execute_handlers, send_error, error_reply.
  destruct (is_BosqueExecutionError (exn_cls e));
    match goal with
    | |- context [when (negb silent) (send_response ?ty ?c)] =>
        destruct (when_send_frame silent ty c w) as (w0 & E0 & Hc & Hf & Hp)
    end;
    rewrite (bind_ok _ _ _ _ _ E0);
    (erewrite bind_ok; [|apply os_chdir_ok; now rewrite Hf]);
    eexists; (split; [reflexivity|]); cbn; auto.
Qed.

Lemma request_fails_before_wrapper self code silent w e :
  isdir (w_fs w) (w_cwd w) = true ->
  (forall w0, w_fs w0 = w_fs w ->
     do_execute_body run self code silent (w_cwd w) w0 = (Raise e, w0)) ->
  exists w',
    do_execute run self code silent w
    = (Ok (error_reply self
             (if is_BosqueExecutionError (exn_cls e)
              then "BosqueExecutionError" else class_name (exn_cls e))
             (exn_str e)), w')
    /\ w_procs w' = w_procs w /\ w_fs w' = w_fs w /\ w_cwd w' = w_cwd w.
Proof.
  intros Hd Hbody. unfold do_execute.
  destruct (when_send_frame silent "status"
              (VDict [("execution_state", VStr "busy")]) w)
    as (w0 & E0 & Hc & Hf & Hp).
  rewrite (bind_ok _ _ _ _ _ E0). unfold os_getcwd. rewrite Hc, Hf, Hd.
  rewrite (try_raise _ _ _ _ _ (Hbody w0 Hf)).
  destruct (handlers_reply_frame self silent (w_cwd w) e w0)
    as (w' & -> & Hc' & Hf' & Hp'); [now rewrite Hf|].
  exists w'. repeat split; congruence.
Qed.

Lemma request_scratch_missing self code silent w d :
  isdir (w_fs w) (w_cwd w) = true ->
  temp_dir self = Some d ->
  isdir (w_fs w) d = false ->
  exists w',
    do_execute run self code silent w
    = (Ok (error_reply self "RuntimeError"
             "Failed to change working directory."), w')
    /\ w_procs w' = w_procs w /\ w_fs w' = w_fs w /\ w_cwd w' = w_cwd w.
Proof.
  intros Hd Ht Hdt.
  assert (Hch : exists e0, forall w0, w_fs w0 = w_fs w ->
                  os_chdir d w0 = (Raise e0, w0)
                  /\ is_OSError (exn_cls e0) = true).
  { unfold os_chdir, isdir in *.
    destruct (lookup (w_fs w) d) as [[c|]|] eqn:El; try discriminate;
      eexists; intros w0 ->; rewrite El; split; reflexivity. }
  destruct Hch as (e0 & Hch).
  apply (request_fails_before_wrapper self code silent w
           (error_in e0 RuntimeError "Failed to change working directory."));
    [assumption|].
  intros w0 Hf. destruct (Hch w0 Hf) as [E Hos].
  unfold do_execute_body. rewrite Ht. apply bind_raise.
  rewrite (try_raise _ _ _ _ _ E). now rewrite Hos.
Qed.

(** When the scratch directory is not there, or the kernel has none, no
    program is run and nothing is written: the change of directory fails,
    the reply is an error reply, a [RuntimeError] in the first case and the
    [TypeError] of [os.chdir] in the second, and the working directory is
    the one the request started in. *)
Theorem request_without_scratch self code silent w :
  isdir (w_fs w) (w_cwd w) = true ->
  (forall d, temp_dir self = Some d -> isdir (w_fs w) d = false ->
     exists w',
       do_execute run self code silent w
       = (Ok (error_reply self "RuntimeError"
                "Failed to change working directory."), w')
       /\ w_procs w' = w_procs w /\ w_fs w' = w_fs w /\ w_cwd w' = w_cwd w)
  /\ (temp_dir self = None ->
      exists evalue w',
        do_execute run self code silent w
        = (Ok (error_reply self "TypeError" evalue), w')
        /\ w_procs w' = w_procs w /\ w_fs w' = w_fs w /\ w_cwd w' = w_cwd w).
Proof.
  intros Hd. split.
  - intros d Ht Hdt. now apply request_scratch_missing with d.
  - intros Ht.
    assert (Hb : exists evalue, forall w0,
                   do_execute_body run self code silent (w_cwd w) w0
                   = (Raise (error TypeError evalue), w0)).
    { eexists. intros w0. unfold do_execute_body. rewrite Ht.
      apply bind_raise. reflexivity. }
    destruct Hb as (evalue & Hb). exists evalue.
    apply (request_fails_before_wrapper self code silent w
             (error TypeError evalue)); [assumption|].
    intros w0 _. apply Hb.
Qed.

(** When the working directory of the process is not there any more,
    [do_execute] does not reply: [os.getcwd()] fails before [original_cwd]
    is bound, and the handler that would restore it raises
    [UnboundLocalError].  No program is run. *)
Theorem request_without_cwd self code silent w :
  isdir (w_fs w) (w_cwd w) = false ->
  exists e w',
    do_execute run self code silent w = (Raise e, w')
    /\ exn_cls e = UnboundLocalError
    /\ w_procs w' = w_procs w /\ w_cwd w' = w_cwd w.
Proof.
  intros Hd. unfold do_execute.
  destruct (when_send_frame silent "status"
              (VDict [("execution_state", VStr "busy")]) w)
    as (w0 & E0 & Hc & Hf & Hp).
  rewrite (bind_ok _ _ _ _ _ E0). unfold os_getcwd. rewrite Hc, Hf, Hd.
  unfold do_execute_handlers, error, exn_cls.
  cbn [is_BosqueExecutionError].
  match goal with
  | |- context [when (negb silent) (send_error ?e)] =>
      destruct (when_send_frame silent "error"
                  (VDict [("ename", VStr (class_name (exn_cls e)));
                          ("evalue", VStr (exn_str e));
                          ("traceback", VList [])]) w0)
        as (w1 & E1 & Hc1 & Hf1 & Hp1)
  end.
  unfold send_error. rewrite (bind_ok _ _ _ _ _ E1).
  eexists _, w1. split; [reflexivity|]. cbn. repeat split; congruence.
Qed.

End Requests.

Section Start.
Variable mkdtemp : string -> M path.
Variable which : string -> option string.


End Start.

(** ** Shutdown *)

Lemma is_prefix_refl d : is_prefix d d = true.
Proof. induction d as [|a d IH]; simpl; [reflexivity|]. now rewrite String.eqb_refl. Qed.

Lemma lookup_rmtree d f p :
  lookup (filter (fun e => negb (is_prefix d (fst e))) f) p
  = if is_prefix d p then None else lookup f p.
Proof.
  induction f as [|[q n] f IH]; simpl.
  - now destruct (is_prefix d p).
  - destruct (is_prefix d q) eqn:Eq; simpl.
    + rewrite IH. destruct (is_prefix d p) eqn:Ep; [reflexivity|].
      destruct (path_eqb q p) eqn:E; [|reflexivity].
      apply path_eqb_eq in E as ->. congruence.
    + rewrite IH. destruct (path_eqb q p) eqn:E; [|reflexivity].
      apply path_eqb_eq in E as ->. now rewrite Eq.
Qed.

Lemma do_shutdown_world self restart w d :
  temp_dir self = Some d ->
  isdir (w_fs w) d = true ->
  do_shutdown self restart w
  = (Ok tt, with_fs w (filter (fun e => negb (is_prefix d (fst e))) (w_fs w))).
Proof.
  intros Ht Hd. unfold do_shutdown, shutil_rmtree_ignore_errors.
  now rewrite Ht, Hd.
Qed.

(** [do_shutdown] removes the scratch directory with everything in it,
    whoever made it, leaves every other path as it was, and keeps the
    working directory. *)
Theorem do_shutdown_removes_scratch self restart w d :
  temp_dir self = Some d ->
  isdir (w_fs w) d = true ->
  exists w',
    do_shutdown self restart w = (Ok tt, w')
    /\ (forall p, is_prefix d p = true -> lookup (w_fs w') p = None)
    /\ (forall p, is_prefix d p = false ->
                  lookup (w_fs w') p = lookup (w_fs w) p)
    /\ w_cwd w' = w_cwd w.
Proof.
  intros Ht Hd. rewrite (do_shutdown_world _ _ _ _ Ht Hd).
  eexists. split; [reflexivity|]. cbn [w_fs w_cwd with_fs].
  repeat split; intros p Hp; now rewrite lookup_rmtree, Hp.
Qed.

(** A request that comes after [do_shutdown] runs no program: the kernel
    still names the scratch directory that is gone, and the reply is the
    error of the change of directory. *)
Theorem request_after_shutdown run self restart code silent w d :
  temp_dir self = Some d ->
  isdir (w_fs w) d = true ->
  isdir (w_fs w) (w_cwd w) = true ->
  is_prefix d (w_cwd w) = false ->
  exists w1 w2,
    do_shutdown self restart w = (Ok tt, w1)
    /\ do_execute run self code silent w1
       = (Ok (error_reply self "RuntimeError"
                "Failed to change working directory."), w2)
    /\ w_procs w2 = w_procs w
    /\ w_cwd w2 = w_cwd w.
Proof.
  intros Ht Hd Hcwd Hout. rewrite (do_shutdown_world _ _ _ _ Ht Hd).
  set (w1 := with_fs w _).
  destruct (request_scratch_missing run self code silent w1 d)
    as (w2 & E & Hp & _ & Hc).
  - unfold isdir, w1. cbn [w_fs w_cwd with_fs].
    now rewrite lookup_rmtree, Hout.
  - assumption.
  - unfold isdir, w1. cbn [w_fs with_fs].
    now rewrite lookup_rmtree, is_prefix_refl.
  - exists w1, w2. repeat split; assumption.
Qed.

End KernelMore.

(* ================================================================== *)
(** * The theorems at work on the samples *)
(* ================================================================== *)

Module Checks.
Import Py Regex BosqueLexer OS Wrapper Kernel Props Examples.
Import LexerFacts OSFacts WrapperFacts KernelFacts.
Local Open Scope string_scope.

(** ** The lexer on small texts *)

Example lex_statement :
  lex "if (x) { return Foo::Bar(3/4R); } %% hi"
  = Some [(0, Keyword, "if"); (2, Text, " "); (3, Punctuation, "(");
          (4, Name_Variable, "x"); (5, Punctuation, ")"); (6, Text, " ");
          (7, Punctuation, "{"); (8, Text, " "); (9, Keyword, "return");
          (15, Text, " "); (16, Name_Class, "Foo::Bar");
          (24, Punctuation, "("); (25, Constant_Numeric, "3/4R");
          (29, Punctuation, ")"); (30, Punctuation, ";"); (31, Text, " ");
          (32, Punctuation, "}"); (33, Text, " ");
          (34, Comment_Single, "%% hi")].
Proof. vm_compute. reflexivity. Qed.

(** A call: the name before the parenthesis is a variable. *)
Example lex_call :
  lex "foo (1.5e+3f)"
  = Some [(0, Name_Variable, "foo"); (3, Text, " "); (4, Punctuation, "(");
          (5, Constant_Numeric, "1.5e+3f"); (12, Punctuation, ")")].
Proof. vm_compute. reflexivity. Qed.

(** A character of no rule is skipped alone and the scan goes on. *)
Example lex_unknown_character :
  lex "a # b"
  = Some [(0, Name_Variable, "a"); (1, Text, " "); (2, Error, "#");
          (3, Text, " "); (4, Name_Variable, "b")].
Proof. vm_compute. reflexivity. Qed.

(** A closed block comment, and a string with an escape. *)
Example lex_comment_and_string :
  lex ("%* note *% " ++ String dquote ("a\n" ++ String dquote EmptyString))
  = Some [(0, Comment_Multiline, "%*"); (2, Comment_Multiline, " note ");
          (8, Comment_Multiline, "*%"); (10, Text, " ");
          (11, String_Double, String dquote EmptyString);
          (12, String_Double, "a"); (13, String_Escape, "\n");
          (15, String_Double, String dquote EmptyString)].
Proof. vm_compute. reflexivity. Qed.

(** ** The wrapper and the kernel on the samples *)

Example run_success :
  fst (compile_and_execute tools_succeed new_wrapper cell scratch
         (world_of compiled_fs))
  = Ok (line "1i").
Proof. vm_compute. reflexivity. Qed.

Example request_success :
  fst (do_execute tools_succeed kernel0 cell false (world_of compiled_fs))
  = Ok (VDict [("status", VStr "ok"); ("execution_count", VInt 1);
               ("payload", VList []); ("user_expressions", VDict [])])
  /\ w_iopub (snd (do_execute tools_succeed kernel0 cell false
                     (world_of compiled_fs)))
     = [("status", VDict [("execution_state", VStr "busy")]);
        ("stream", VDict [("name", VStr "stdout"); ("text", VStr (line "1i"))]);
        ("status", VDict [("execution_state", VStr "idle")])].
Proof. split; vm_compute; reflexivity. Qed.

Example request_runtime_failure :
  fst (do_execute runtime_fails kernel0 cell true (world_of compiled_fs))
  = Ok (error_reply kernel0 "BosqueExecutionError"
          "Execution failed: Execution failed: Error: abort").
Proof. vm_compute. reflexivity. Qed.

(** ** The claims on the samples *)

(** C1 as the specification words it fails: the compiler returns 1 with
    one line on its standard error, and the message of the exception holds
    that line without its newline, so not the text that was captured. *)
Lemma compilation_message_lacks_stderr :
  returncode (fst_completed compiler_rejects) <> 0%Z
  /\ fst (compile_and_execute compiler_rejects new_wrapper cell scratch
            (world_of fresh_fs))
     = Raise (error BosqueExecutionError
                "Compilation failed: parse error at line 3")
  /\ str_in (stderr (fst_completed compiler_rejects))
       "Compilation failed: parse error at line 3" = false.
Proof. repeat split; vm_compute; congruence. Qed.

Lemma compile_and_execute_outcomes_witness :
  fst (compile_and_execute compiler_rejects new_wrapper cell scratch
         (world_of fresh_fs))
  = Raise (error BosqueExecutionError
             "Compilation failed: parse error at line 3")
  /\ fst (compile_and_execute runtime_fails new_wrapper cell scratch
            (world_of compiled_fs))
     = Raise (error BosqueExecutionError "Execution failed: Error: abort")
  /\ fst (compile_and_execute tools_succeed new_wrapper cell scratch
            (world_of compiled_fs))
     = Ok (line "1i").
Proof.
  split; [|split].
  - set (res := compile_and_execute compiler_rejects new_wrapper cell scratch
                  (world_of fresh_fs)).
    refine (proj2 (proj1 (compile_and_execute_outcomes compiler_rejects
                            new_wrapper cell scratch (world_of fresh_fs)
                            (fst res) (snd res) _)
                     (hd_process (w_procs (snd res))) [] _ _ _)).
    + vm_compute. reflexivity.
    + vm_compute. reflexivity.
    + vm_compute. discriminate.
    + vm_compute. reflexivity.
  - set (res := compile_and_execute runtime_fails new_wrapper cell scratch
                  (world_of compiled_fs)).
    refine (proj2 (proj1 (proj2 (compile_and_execute_outcomes runtime_fails
                                   new_wrapper cell scratch
                                   (world_of compiled_fs)
                                   (fst res) (snd res) _))
                     (hd_process (w_procs (snd res)))
                     (snd_process (w_procs (snd res))) _ _)).
    + vm_compute. reflexivity.
    + vm_compute. reflexivity.
    + vm_compute. discriminate.
  - set (res := compile_and_execute tools_succeed new_wrapper cell scratch
                  (world_of compiled_fs)).
    refine (proj1 (proj2 (proj2 (compile_and_execute_outcomes tools_succeed
                                   new_wrapper cell scratch
                                   (world_of compiled_fs)
                                   (fst res) (snd res) _)))
              (hd_process (w_procs (snd res)))
              (snd_process (w_procs (snd res))) _ _).
    + vm_compute. reflexivity.
    + vm_compute. reflexivity.
    + vm_compute. reflexivity.
Defined.


Lemma source_file_removed_witness :
  isfile (w_fs (snd (compile_bosque compiler_rejects new_wrapper cell scratch
                       (world_of fresh_fs))))
    (os_path_join scratch "source.bsq") = false
  /\ lookup
       (p_fs_before
          (hd_process
             (w_procs (snd (compile_bosque tools_succeed new_wrapper "second"
                              scratch (world_of fresh_fs))))))
       (os_path_join scratch "source.bsq")
     = Some (File "second").
Proof.
  split.
  - set (res := compile_bosque compiler_rejects new_wrapper cell scratch
                  (world_of fresh_fs)).
    refine (proj2 (proj1 (proj2 (source_file_removed compiler_rejects
                                   new_wrapper cell scratch
                                   (world_of fresh_fs)
                                   (fst res) (snd res) _))
                     (hd_process (w_procs (snd res))) _)).
    + vm_compute. reflexivity.
    + vm_compute. reflexivity.
  - set (res := compile_bosque tools_succeed new_wrapper "second" scratch
                  (world_of fresh_fs)).
    refine (proj1 (proj1 (proj2 (source_file_removed tools_succeed
                                   new_wrapper "second" scratch
                                   (world_of fresh_fs)
                                   (fst res) (snd res) _))
                     (hd_process (w_procs (snd res))) _)).
    + vm_compute. reflexivity.
    + vm_compute. reflexivity.
Defined.

Lemma compiler_rejects_keeps d : keeps compiler_rejects d.
Proof. intros args cwd f H. exact H. Defined.

Lemma tools_succeed_keeps d : keeps tools_succeed d.
Proof. intros args cwd f H. exact H. Defined.

Lemma do_execute_restores_cwd_witness :
  w_cwd (snd (do_execute compiler_rejects kernel0 cell true (world_of fresh_fs)))
  = home
  /\ exists r w',
       do_execute tools_succeed kernel0 cell false (world_of compiled_fs)
       = (Ok r, w')
       /\ w_cwd w' = home.
Proof.
  split.
  - set (res := do_execute compiler_rejects kernel0 cell true
                  (world_of fresh_fs)).
    refine (proj1 (do_execute_restores_cwd compiler_rejects kernel0 cell true
                     (world_of fresh_fs))
              (error_reply kernel0 "BosqueExecutionError"
                 "Execution failed: Compilation failed: parse error at line 3")
              (snd res) _).
    vm_compute. reflexivity.
  - refine (proj2 (do_execute_restores_cwd tools_succeed kernel0 cell false
                     (world_of compiled_fs)) _ _).
    + vm_compute. reflexivity.
    + apply tools_succeed_keeps.
Defined.



Lemma init_raises_NameError_witness :
  init mkdtemp0 nothing_on_path (world_of fresh_fs)
  = (Raise (Exn NameError "name 'es' is not defined"
       (Some (error RuntimeError "'bosque' executable not found in PATH."))),
     world_of fresh_fs).
Proof.
  refine (proj1 (init_raises_NameError mkdtemp0 nothing_on_path
                   (world_of fresh_fs) ["tmp"; "bosque_kernel_0"]
                   (world_of fresh_fs) _) _).
  - reflexivity.
  - reflexivity.
Defined.





End Checks.

(* ================================================================== *)
(** * The further theorems at work on the samples *)
(* ================================================================== *)

Module ChecksMore.
Import Py Regex BosqueLexer OS Wrapper Kernel Props Examples.
Import LexerFacts OSFacts WrapperFacts KernelFacts.
Import LexerMore WrapperMore KernelMore Checks.
Local Open Scope string_scope.

(** ** The scanner *)











(** ** The wrapper *)

Lemma compile_bosque_success_witness :
  isdir (w_fs (snd (compile_bosque tools_succeed new_wrapper cell scratch
                      (world_of fresh_fs))))
    (os_path_join scratch "jsout") = true
  /\ isfile (w_fs (snd (compile_bosque tools_succeed new_wrapper cell scratch
                          (world_of fresh_fs))))
       (os_path_join scratch "source.bsq") = false.
Proof.
  set (res := compile_bosque tools_succeed new_wrapper cell scratch
                (world_of fresh_fs)).
  refine ((fun H => conj (proj1 (proj2 H)) (proj1 (proj2 (proj2 H))))
            (compile_bosque_success tools_succeed new_wrapper cell scratch
               (world_of fresh_fs) (os_path_join scratch "jsout") (snd res) _)).
  vm_compute. reflexivity.
Defined.

Lemma program_missing_fails_cleanly : fails_cleanly program_missing.
Proof. intros args cwd f e f' H. injection H as _ <-. reflexivity. Defined.

Lemma compile_bosque_leaves_source_witness :
  lookup (w_fs (snd (compile_bosque program_missing new_wrapper cell scratch
                       (world_of fresh_fs))))
    (os_path_join scratch "source.bsq")
  = Some (File cell).
Proof.
  set (res := compile_bosque program_missing new_wrapper cell scratch
                (world_of fresh_fs)).
  refine (proj2 (compile_bosque_leaves_source program_missing new_wrapper
                   cell scratch (world_of fresh_fs) (fst res) (snd res)
                   program_missing_fails_cleanly _ _ _ _)).
  - vm_compute. reflexivity.
  - vm_compute. reflexivity.
  - vm_compute. reflexivity.
  - vm_compute. reflexivity.
Defined.

Lemma find_main_js_prefers_mjs_witness :
  endswith
    (basename (os_path_join (os_path_join scratch "jsout") "b.mjs")) ".mjs"
  = true
  \/ (endswith
        (basename (os_path_join (os_path_join scratch "jsout") "b.mjs")) ".js"
      = true
      /\ forall q,
           In q (listdir (w_fs (world_of mixed_fs))
                   (os_path_join scratch "jsout")) ->
           endswith (basename q) ".mjs" = false).
Proof.
  destruct (proj2 (find_main_js_prefers_mjs new_wrapper
                     (os_path_join scratch "jsout") (world_of mixed_fs)
                     (os_path_join (os_path_join scratch "jsout") "b.mjs")
                     (world_of mixed_fs) eq_refl))
    as [[_ K] | (_ & _ & _ & K)].
  - vm_compute in K. discriminate K.
  - exact K.
Defined.

Lemma compile_and_execute_processes_witness :
  exists pc pn js,
    w_procs (snd (compile_and_execute tools_succeed new_wrapper cell scratch
                    (world_of compiled_fs)))
    = [pc; pn]
    /\ p_args pc = ["bosque"; "/tmp/bosque_kernel_0/source.bsq"]
    /\ p_args pn = ["node"; path_str js].
Proof.
  set (res := compile_and_execute tools_succeed new_wrapper cell scratch
                (world_of compiled_fs)).
  destruct (compile_and_execute_processes tools_succeed new_wrapper cell
              scratch (world_of compiled_fs) (fst res) (snd res) eq_refl)
    as [[K _] | [(pc & K & _) | (pc & pn & js & K & Ha & _ & _ & Hn & _)]].
  - vm_compute in K. discriminate K.
  - vm_compute in K. discriminate K.
  - exists pc, pn, js. repeat split; assumption.
Defined.

(** ** The kernel *)

Lemma silent_request_sends_nothing_witness :
  w_iopub (snd (do_execute compiler_rejects kernel0 cell true
                  (world_of fresh_fs)))
  = [].
Proof.
  set (res := do_execute compiler_rejects kernel0 cell true
                (world_of fresh_fs)).
  refine (silent_request_sends_nothing compiler_rejects kernel0 cell
            (world_of fresh_fs) (fst res) (snd res) _).
  vm_compute. reflexivity.
Defined.

Lemma request_messages_witness :
  (exists w3,
     do_execute tools_succeed kernel0 cell false (world_of compiled_fs)
     = (Ok (ok_reply kernel0), w3)
     /\ w_iopub w3 = [busy_msg; stream_msg (line "1i"); idle_msg])
  /\ (exists w3,
        do_execute compiler_rejects kernel0 cell false (world_of fresh_fs)
        = (Ok (error_reply kernel0 "BosqueExecutionError"
                 "Execution failed: Compilation failed: parse error at line 3"),
           w3)
        /\ w_iopub w3
           = [busy_msg;
              error_msg "BosqueExecutionError"
                "Execution failed: Compilation failed: parse error at line 3"]).
Proof.
  split.
  - refine (proj1 (request_messages tools_succeed kernel0 cell
                     (world_of compiled_fs) scratch _ _ _ _)
              (line "1i")
              (snd (compile_and_execute tools_succeed new_wrapper cell scratch
                      (at_wrapper_entry false scratch (world_of compiled_fs))))
              _).
    + reflexivity.
    + vm_compute. reflexivity.
    + vm_compute. reflexivity.
    + apply tools_succeed_keeps.
    + vm_compute. reflexivity.
  - refine (proj2 (request_messages compiler_rejects kernel0 cell
                     (world_of fresh_fs) scratch _ _ _ _)
              (error BosqueExecutionError
                 "Compilation failed: parse error at line 3")
              (snd (compile_and_execute compiler_rejects new_wrapper cell
                      scratch
                      (at_wrapper_entry false scratch (world_of fresh_fs))))
              _).
    + reflexivity.
    + vm_compute. reflexivity.
    + vm_compute. reflexivity.
    + apply compiler_rejects_keeps.
    + vm_compute. reflexivity.
Defined.

Lemma request_without_scratch_witness :
  (exists w',
     do_execute tools_succeed kernel0 cell false (world_of gone_fs)
     = (Ok (error_reply kernel0 "RuntimeError"
              "Failed to change working directory."), w')
     /\ w_procs w' = [] /\ w_fs w' = gone_fs /\ w_cwd w' = home)
  /\ (exists evalue w',
        do_execute tools_succeed kernel_without_scratch cell false
          (world_of fresh_fs)
        = (Ok (error_reply kernel_without_scratch "TypeError" evalue), w')
        /\ w_procs w' = [] /\ w_fs w' = fresh_fs /\ w_cwd w' = home).
Proof.
  split.
  - refine (proj1 (request_without_scratch tools_succeed kernel0 cell false
                     (world_of gone_fs) _) scratch _ _).
    + vm_compute. reflexivity.
    + reflexivity.
    + vm_compute. reflexivity.
  - refine (proj2 (request_without_scratch tools_succeed
                     kernel_without_scratch cell false (world_of fresh_fs) _)
              _).
    + vm_compute. reflexivity.
    + reflexivity.
Defined.

Lemma request_without_cwd_witness :
  exists e w',
    do_execute tools_succeed kernel0 cell false lost_world = (Raise e, w')
    /\ exn_cls e = UnboundLocalError
    /\ w_procs w' = [] /\ w_cwd w' = home.
Proof.
  refine (request_without_cwd tools_succeed kernel0 cell false lost_world _).
  vm_compute. reflexivity.
Defined.


Lemma do_shutdown_removes_scratch_witness :
  exists w',
    do_shutdown kernel0 false (world_of main_fs) = (Ok tt, w')
    /\ (forall p, is_prefix scratch p = true -> lookup (w_fs w') p = None)
    /\ (forall p, is_prefix scratch p = false ->
                  lookup (w_fs w') p = lookup main_fs p)
    /\ w_cwd w' = home.
Proof.
  refine (do_shutdown_removes_scratch kernel0 false (world_of main_fs)
            scratch _ _).
  - reflexivity.
  - vm_compute. reflexivity.
Defined.

Lemma request_after_shutdown_witness :
  exists w1 w2,
    do_shutdown kernel0 false (world_of main_fs) = (Ok tt, w1)
    /\ do_execute tools_succeed kernel0 cell false w1
       = (Ok (error_reply kernel0 "RuntimeError"
                "Failed to change working directory."), w2)
    /\ w_procs w2 = []
    /\ w_cwd w2 = home.
Proof.
  refine (request_after_shutdown tools_succeed kernel0 false cell false
            (world_of main_fs) scratch _ _ _ _).
  - reflexivity.
  - vm_compute. reflexivity.
  - vm_compute. reflexivity.
  - vm_compute. reflexivity.
Defined.

End ChecksMore.
